(** * UrlScanner: scan-response normalisation, verdict decision and WHOIS helpers

    A shallow embedding of the JavaScript sources
      - [normalizeResult], [normalizeScanResponse]   (parsers, src/n8nClient.js)
      - [decideVerdict]                              (verdict, src/unnamed/part_002)
      - [hasWhoisData] ... [parseWhoisData]          (src/whoisUtils.js)
    over JSON-shaped JavaScript values.

    Numbers are IEEE-754 binary64 values (Rocq's primitive floats), objects are
    finite maps from property names to values, arrays are lists.  A JavaScript
    expression that can raise a TypeError is a function into [option]; [None]
    is the raised exception.  The two number/string conversions of the
    language runtime, the date parser, the date printer and the system clock
    are parameters of the development: every theorem holds for all of them. *)

From Stdlib Require Import PrimFloat Uint63 SpecFloat FloatOps FloatAxioms.
From stdpp Require Import base option list list_monad strings pretty gmap.

Local Open Scope string_scope.
Set Warnings "-register-all".
Set Default Proof Using "Type".

(** ** JavaScript values *)

Inductive JsVal : Type :=
| JUndefined
| JNull
| JBool (b : bool)
| JNum (x : float)
| JStr (s : string)
| JArr (l : list JsVal)
| JObj (o : gmap string JsVal).

Definition is_undefined (v : JsVal) : bool :=
  match v with JUndefined => true | _ => false end.

Definition isArray (v : JsVal) : bool :=
  match v with JArr _ => true | _ => false end.

(** [typeof v === 'object']: objects, arrays and [null]. *)
Definition typeof_object (v : JsVal) : bool :=
  match v with JNull | JArr _ | JObj _ => true | _ => false end.

(** [typeof v === 'string'] *)
Definition typeof_string (v : JsVal) : bool :=
  match v with JStr _ => true | _ => false end.

(** ToBoolean: [undefined], [null], [false], [0], [-0], [NaN] and [''] are
    falsy, everything else (every array and object included) is truthy. *)
Definition truthy (v : JsVal) : bool :=
  match v with
  | JUndefined | JNull => false
  | JBool b => b
  | JNum x => negb (PrimFloat.eqb x 0 || PrimFloat.is_nan x)
  | JStr s => negb (bool_decide (s = ""))
  | JArr _ | JObj _ => true
  end.

(** [a || b] on operands whose evaluation has no effect. *)
Definition jor (a b : JsVal) : JsVal := if truthy a then a else b.

Definition of_nat (n : nat) : float := PrimFloat.of_uint63 (Uint63.of_Z (Z.of_nat n)).

(** Strings are held as UTF-8 text.  JavaScript indexes and spreads a
    string by UTF-16 code unit: a character of the Basic Multilingual Plane
    (one to three bytes of UTF-8) is one unit, a character beyond it (four
    bytes) is a pair of surrogates; a lone surrogate is written in the
    three-byte form of its code point.  A byte that starts no well-formed
    sequence stands for itself. *)
Definition continuation (b : Ascii.ascii) : bool :=
  let n := Ascii.N_of_ascii b in ((128 <=? n) && (n <? 192))%N.

Definition surrogate (u : N) : string :=
  String (Ascii.ascii_of_N (224 + u / 4096))
    (String (Ascii.ascii_of_N (128 + (u / 64) mod 64))
       (String (Ascii.ascii_of_N (128 + u mod 64)) "")).

Fixpoint codeUnits (s : list Ascii.ascii) : list string :=
  match s with
  | [] => []
  | a :: s1 =>
      let n := Ascii.N_of_ascii a in
      let lone := String a "" :: codeUnits s1 in
      match s1 with
      | b :: s2 =>
          if ((192 <=? n) && (n <? 224))%N && continuation b
          then String a (String b "") :: codeUnits s2
          else
            match s2 with
            | c :: s3 =>
                if ((224 <=? n) && (n <? 240))%N && continuation b && continuation c
                then String a (String b (String c "")) :: codeUnits s3
                else
                  match s3 with
                  | d :: s4 =>
                      if ((240 <=? n) && (n <? 248))%N
                         && continuation b && continuation c && continuation d
                      then
                        let point := ((n - 240) * 262144
                                      + (Ascii.N_of_ascii b - 128) * 4096
                                      + (Ascii.N_of_ascii c - 128) * 64
                                      + (Ascii.N_of_ascii d - 128))%N in
                        let v := (point - 65536)%N in
                        surrogate (55296 + v / 1024) :: surrogate (56320 + v mod 1024)
                          :: codeUnits s4
                      else lone
                  | [] => lone
                  end
            | [] => lone
            end
      | [] => lone
      end
  end.

(** The one-unit strings [s[0]], [s[1]], ... of a string. *)
Definition chars (s : string) : list JsVal :=
  JStr <$> codeUnits (String.list_ascii_of_string s).

(** Own enumerable properties, as copied by object spread [{...v}]: the
    fields of an object, the indexed elements of an array, the indexed
    code units of a string, nothing for the other primitives. *)
Definition indexed (l : list JsVal) : gmap string JsVal :=
  list_to_map (imap (λ i v, (pretty i, v)) l).

Definition ownProps (v : JsVal) : gmap string JsVal :=
  match v with
  | JObj o => o
  | JArr l => indexed l
  | JStr s => indexed (chars s)
  | _ => ∅
  end.

(** [v.k] for a value [v] that is neither [null] nor [undefined] and a
    property name [k] that is not inherited from a prototype and is neither
    an index nor [length] (true of every name the sources read this way):
    the own field of an object, [undefined] otherwise. *)
Definition get (v : JsVal) (k : string) : JsVal :=
  match v with
  | JObj o => default JUndefined (o !! k)
  | _ => JUndefined
  end.

(** [v.k] for an arbitrary [v]: reading a property of [null] or [undefined]
    raises a TypeError. *)
Definition getProp (v : JsVal) (k : string) : option JsVal :=
  match v with
  | JUndefined | JNull => None
  | _ => Some (get v k)
  end.

(** [v[0]] for [v] neither [null] nor [undefined]. *)
Definition get0 (v : JsVal) : JsVal :=
  match v with
  | JArr l => default JUndefined (l !! 0)
  | JStr s => default JUndefined (chars s !! 0)
  | JObj o => default JUndefined (o !! "0")
  | _ => JUndefined
  end.

(** [v?.k] and [v?.[0]] *)
Definition getOpt (v : JsVal) (k : string) : JsVal :=
  match v with JUndefined | JNull => JUndefined | _ => get v k end.

Definition getOpt0 (v : JsVal) : JsVal :=
  match v with JUndefined | JNull => JUndefined | _ => get0 v end.

(** ** Math *)

Definition two52 : float := 0x1p52%float.

(** [Math.floor]: below 2^52 in magnitude the sum with 2^52 rounds to the
    nearest integer, which is then corrected downwards. *)
Definition Math_floor (x : float) : float :=
  if PrimFloat.is_nan x then x
  else if PrimFloat.leb two52 (PrimFloat.abs x) then x
  else if PrimFloat.eqb x 0 then x
  else
    let r := if PrimFloat.ltb 0 x then ((x + two52) - two52)%float
             else ((x - two52) + two52)%float in
    if PrimFloat.ltb x r then (r - 1)%float else r.

(** [Math.round]: the closest integer, ties towards +infinity; a result of
    zero keeps the sign of the argument. *)
Definition Math_round (x : float) : float :=
  if PrimFloat.is_nan x then x
  else if PrimFloat.leb two52 (PrimFloat.abs x) then x
  else if PrimFloat.eqb x 0 then x
  else
    let f := Math_floor x in
    let r := if PrimFloat.ltb (x - f)%float 0.5%float then f else (f + 1)%float in
    if PrimFloat.eqb r 0 && PrimFloat.ltb x 0 then neg_zero else r.

(** [Math.max] of two numbers. *)
Definition Math_max (a b : float) : float :=
  if PrimFloat.is_nan a || PrimFloat.is_nan b then nan
  else if PrimFloat.ltb a b then b
  else if PrimFloat.ltb b a then a
  else if PrimFloat.eqb a 0 then (a + b)%float
  else a.

(** ** Placeholders for the runtime parameters

    The worked examples at the end of the file contain no string that is
    converted to a number, no number that is printed, and no date; they are
    closed with these placeholders, and their proofs go through the lemmas
    that hold for every runtime. *)

Definition noStringToNumber : string → float := λ _, nan.
Definition noNumberToString : float → string := λ _, "".
Definition noDateParse : string → float := λ _, nan.
Definition noDatePrint : float → string := λ _, "".
Definition noClock : nat → float := λ _, 0%float.

(** ** Browser storage *)

(** [localStorage] as far as the history uses it: either every access
    raises, or it holds at most one text under STORAGE_KEY. *)
Inductive Store : Type :=
| Denied
| Holding (item : option string).

(** The browser services the history relies on: [JSON.parse] ([None]: a
    SyntaxError is raised), [JSON.stringify] of an array, and whether
    [setItem] refuses a text for lack of room. *)
Record Browser : Type := {
  JSON_parse : string → option JsVal;
  JSON_stringify : JsVal → string;
  quotaExceeded : string → bool
}.

Section Engine.

(** StringToNumber of ECMA-262 (the numeric value of a string, NaN when it
    is not a numeric literal) and Number::toString. *)
Variable StringToNumber : string → float.
Variable NumberToString : float → string.

(** [Date.parse] of a string (NaN when the string is not a date) and
    [date.toLocaleDateString('en-US', {year: 'numeric', month: 'short',
    day: 'numeric'})] of a valid time value. *)
Variable Date_parse : string → float.
Variable toLocaleDateString : float → string.

(** ** Coercions *)

(** ToString.  An array is the comma-joined ToString of its elements, with
    [null] and [undefined] elements printed as the empty string.  A plain
    object prints through [Object.prototype.toString]; when it has an own
    property [toString] (never callable in data read from JSON) no
    conversion method remains and a TypeError is raised. *)
Fixpoint ToString (v : JsVal) : option string :=
  match v with
  | JUndefined => Some "undefined"
  | JNull => Some "null"
  | JBool b => Some (if b then "true" else "false")
  | JNum x => Some (NumberToString x)
  | JStr s => Some s
  | JArr l =>
      String.concat "," <$>
        (fix go (l : list JsVal) : option (list string) :=
           match l with
           | [] => Some []
           | x :: rest =>
               s ← match x with
                   | JUndefined | JNull => Some ""
                   | _ => ToString x
                   end;
               ss ← go rest;
               Some (s :: ss)
           end) l
  | JObj o => if bool_decide (is_Some (o !! "toString")) then None
              else Some "[object Object]"
  end.

(** ToNumber; arrays and objects go through their string form. *)
Definition ToNumber (v : JsVal) : option float :=
  match v with
  | JUndefined => Some nan
  | JNull => Some 0%float
  | JBool b => Some (if b then 1%float else 0%float)
  | JNum x => Some x
  | JStr s => Some (StringToNumber s)
  | JArr _ | JObj _ => StringToNumber <$> ToString v
  end.

(** [v > n] and [v >= n] against a number [n]: the comparison is numeric,
    and false when [v] converts to NaN. *)
Definition js_gt (v : JsVal) (n : float) : option bool :=
  x ← ToNumber v; Some (PrimFloat.ltb n x).

Definition js_ge (v : JsVal) (n : float) : option bool :=
  x ← ToNumber v; Some (PrimFloat.leb n x).

(** [a / b] *)
Definition js_div (a b : JsVal) : option float :=
  x ← ToNumber a; y ← ToNumber b; Some (x / y)%float.

(** ** Result field normaliser (normalizeResult, src/n8nClient.js) *)

(** [x ? x : (b ? `data:image/png;base64,${b}` : null)] *)
Definition srcOf (url b64 : JsVal) : option JsVal :=
  if truthy url then Some url
  else if truthy b64 then s ← ToString b64; Some (JStr ("data:image/png;base64," ++ s))
  else Some JNull.

Definition faviconUrlOf (r : JsVal) : JsVal :=
  jor (get r "favicon_url") (jor (get r "favicon") (jor (get r "faviconUrl")
    (jor (get r "favicon_image_url")
      (jor (getOpt (getOpt0 (get r "favicons")) "url") JNull)))).

Definition faviconBase64Of (r : JsVal) : JsVal :=
  jor (get r "favicon_base64") (jor (get r "faviconBase64")
    (jor (get r "favicon_data") (jor (get r "faviconData") JNull))).

Definition screenshotBase64Of (r : JsVal) : JsVal :=
  jor (getOpt (get r "screenshot") "screenshot_base64")
    (jor (get r "screenshot_base64") (jor (get r "screenshotBase64") JNull)).

Definition screenshotUrlOf (r : JsVal) : JsVal :=
  jor (getOpt (get r "screenshot") "image_url")
    (jor (get r "screenshot_url") (jor (get r "screenshotUrl") JNull)).

Definition normalizeResult (r : JsVal) : option JsVal :=
  if negb (truthy r) || negb (typeof_object r) then Some r
  else
    let faviconUrl := faviconUrlOf r in
    let faviconBase64 := faviconBase64Of r in
    let screenshotBase64 := screenshotBase64Of r in
    let screenshotUrl := screenshotUrlOf r in
    favicon_src ← srcOf faviconUrl faviconBase64;
    screenshot_src ← srcOf screenshotUrl screenshotBase64;
    Some (JObj (<["screenshot_src" := screenshot_src]>
               (<["favicon_src" := favicon_src]>
               (<["favicon_base64" := jor faviconBase64 JNull]>
               (<["favicon_url" := jor faviconUrl JNull]>
               (ownProps r)))))).

(** The fields written on lines 37-40. *)
Definition canonicalKeys : list string :=
  ["favicon_url"; "favicon_base64"; "favicon_src"; "screenshot_src"].

(** ** Shape detector (normalizeScanResponse, src/n8nClient.js) *)

(** [arr.map(normalizeResult)] *)
Definition mapNormalizeResult (l : list JsVal) : option JsVal :=
  JArr <$> mapM normalizeResult l.

(** The callback of lines 46, 51 and 55:
    [cat => ({ ...cat, results: Array.isArray(cat.results)
                                  ? cat.results.map(normalizeResult) : cat.results })] *)
Definition normalizeCategory (cat : JsVal) : option JsVal :=
  results ← getProp cat "results";
  results' ← match results with
              | JArr l => mapNormalizeResult l
              | _ => Some results
              end;
  Some (JObj (<["results" := results']> (ownProps cat))).

(** The guard of line 54:
    [Array.isArray(raw.results) && raw.results.length > 0 && raw.results[0].verdict] *)
Definition resultsAreCategories (raw : JsVal) : option bool :=
  match get raw "results" with
  | JArr (first :: _) => truthy <$> getProp first "verdict"
  | _ => Some false
  end.

(** The guard of line 59 *)
Definition looksLikeCategory (raw : JsVal) : bool :=
  truthy (get raw "verdict") || truthy (get raw "risk_score") || isArray (get raw "results").

(** The guard of line 77 *)
Definition looksLikeResult (raw : JsVal) : bool :=
  truthy (get raw "input_url") || truthy (get raw "domain") || truthy (get raw "ip").

(** Line 68: the [results] of the synthetic category *)
Definition syntheticResults (raw : JsVal) : option JsVal :=
  match get raw "results" with
  | JArr l => mapNormalizeResult l
  | _ => match get raw "items" with
         | JArr l => mapNormalizeResult l
         | _ => Some (JArr [])
         end
  end.

(** The object literal of lines 61-72 *)
Definition syntheticCategory (raw : JsVal) : option JsVal :=
  results ← syntheticResults raw;
  Some (JObj (<["_raw" := raw]>
             (<["count" := jor (get raw "count")
                               (match get raw "results" with
                                | JArr l => JNum (of_nat (length l))
                                | _ => JNum 1
                                end)]>
             (<["results" := results]>
             (<["detections" := match get raw "detections" with
                                | JArr l => JArr l
                                | _ => JArr []
                                end]>
             (<["total_engines" := jor (get raw "total_engines") (JNum 0)]>
             (<["malicious_count" := jor (get raw "malicious_count") (JNum 0)]>
             (<["confidence" := jor (get raw "confidence") (JStr "N/A")]>
             (<["risk_score" := jor (get raw "risk_score") (JNum 0)]>
             (<["verdict" := jor (get raw "verdict") (JStr "UNKNOWN")]> ∅)))))))))).

(** The object literal of lines 79-89 *)
Definition wrappedResult (raw : JsVal) : option JsVal :=
  r ← normalizeResult raw;
  Some (JObj (<["_raw" := raw]>
             (<["count" := JNum 1]>
             (<["results" := JArr [r]]>
             (<["detections" := JArr []]>
             (<["total_engines" := JNum 0]>
             (<["malicious_count" := JNum 0]>
             (<["confidence" := JStr "N/A"]>
             (<["risk_score" := JNum 0]>
             (<["verdict" := JStr "UNKNOWN"]> ∅)))))))))).

(** Lines 44-95.  When the guard of line 54 holds [raw.results] is an
    array, so the second branch of the inner match is never taken. *)
Definition normalizeScanResponse (raw : JsVal) : option JsVal :=
  match raw with
  | JArr l => JArr <$> mapM normalizeCategory l
  | JObj _ =>
      match get raw "categories" with
      | JArr cats => JArr <$> mapM normalizeCategory cats
      | _ =>
          resultsAreCategories raw ≫= λ b : bool,
          if b then
            match get raw "results" with
            | JArr l => JArr <$> mapM normalizeCategory l
            | _ => Some (JArr [])
            end
          else if looksLikeCategory raw then
            c ← syntheticCategory raw; Some (JArr [c])
          else if looksLikeResult raw then
            c ← wrappedResult raw; Some (JArr [c])
          else Some (JArr [])
      end
  | _ => Some (JArr [])
  end.

(** The payloads that reach lines 58-94: not an array, no [categories]
    array, and the guard of line 54 false. *)
Definition wrappedShape (raw : JsVal) : Prop :=
  isArray raw = false ∧ isArray (get raw "categories") = false ∧
  resultsAreCategories raw = Some false.

(** The payloads that leave through lines 46, 51 and 55, with the array of
    categories that is mapped there: the payload itself, its [categories],
    or its [results] when the guard of line 54 holds. *)
Definition suppliesCategories (raw : JsVal) (supplied : list JsVal) : Prop :=
  raw = JArr supplied ∨
  (isArray raw = false ∧ get raw "categories" = JArr supplied) ∨
  (isArray raw = false ∧ isArray (get raw "categories") = false ∧
   resultsAreCategories raw = Some true ∧ get raw "results" = JArr supplied).

(** ** Verdict decision engine (decideVerdict, src/unnamed/part_002) *)

(** Lines 18-23: the callback of [forEach], as a step on [maliciousCount].
    [result.risk_score && result.risk_score > 50] *)
Definition countStep (maliciousCount : float) (result : JsVal) : option float :=
  risk_score ← getProp result "risk_score";
  (if truthy risk_score then js_gt risk_score 50 else Some false) ≫= λ b : bool,
  Some (if b then (maliciousCount + 1)%float else maliciousCount).

Fixpoint forEachCount (maliciousCount : float) (results : list JsVal) : option float :=
  match results with
  | [] => Some maliciousCount
  | result :: rest =>
      countStep maliciousCount result ≫= λ m, forEachCount m rest
  end.

(** Lines 13-31: [maliciousCount] and [totalEngines] before the explicit
    counts of the category are looked at. *)
Definition derivedCounts (category : JsVal) : option (float * float) :=
  results ← getProp category "results";
  maliciousCount ← match results with
                    | JArr l => forEachCount 0 l
                    | _ => Some 0%float
                    end;
  Some (match get category "detections" with
        | JArr ((_ :: _) as detections) =>
            ((maliciousCount + of_nat (length detections))%float, Math_max 0 70)
        | _ => (maliciousCount, 0%float)
        end).

(** Lines 34-39: an explicit count of the category replaces the derived one. *)
Definition explicitOr (field : JsVal) (derived : float) : JsVal :=
  if is_undefined field then JNum derived else field.

Definition maliciousCountOf (category : JsVal) : option JsVal :=
  counts ← derivedCounts category;
  Some (explicitOr (get category "malicious_count") counts.1).

Definition totalEnginesOf (category : JsVal) : option JsVal :=
  counts ← derivedCounts category;
  Some (explicitOr (get category "total_engines") counts.2).

(** Lines 42-46: [riskScore] *)
Definition riskScoreOf (category maliciousCount totalEngines : JsVal) : option JsVal :=
  js_gt totalEngines 0 ≫= λ b : bool,
  if b then
    q ← js_div maliciousCount totalEngines;
    Some (JNum (Math_round (q * 100)%float))
  else if truthy (get category "risk_score") then Some (get category "risk_score")
  else Some (JNum 0).

(** Lines 49-55: the freshly computed verdict.  [||] does not evaluate its
    right operand when the left one is true. *)
Definition classify (riskScore maliciousCount : JsVal) : option string :=
  js_ge riskScore 70 ≫= λ b1 : bool,
  (if b1 then Some true else js_ge maliciousCount 10) ≫= λ malicious : bool,
  if malicious then Some "MALICIOUS"
  else
    js_ge riskScore 40 ≫= λ b2 : bool,
    (if b2 then Some true else js_ge maliciousCount 3) ≫= λ suspicious : bool,
    if suspicious then Some "SUSPICIOUS" else Some "CLEAN".

(** Property names every object literal inherits from [Object.prototype]. *)
Definition inheritedKeys : list string :=
  [ "constructor"; "hasOwnProperty"; "isPrototypeOf"; "propertyIsEnumerable";
    "toLocaleString"; "toString"; "valueOf"; "__proto__";
    "__defineGetter__"; "__defineSetter__"; "__lookupGetter__"; "__lookupSetter__" ].

(** Lines 59-61: [verdictRank[key] || 0] for the table
    [{ 'MALICIOUS': 3, 'SUSPICIOUS': 2, 'CLEAN': 1 }].  For an inherited
    name the lookup yields a built-in function or object, which is truthy
    and compares as NaN on line 62; it is represented by NaN. *)
Definition rankOrZero (key : string) : float :=
  if bool_decide (key = "MALICIOUS") then 3%float
  else if bool_decide (key = "SUSPICIOUS") then 2%float
  else if bool_decide (key = "CLEAN") then 1%float
  else if bool_decide (key ∈ inheritedKeys) then nan
  else 0%float.

(** Lines 58-65: the merge with the verdict the category came with.  The
    property name looked up in the table is the string form of
    [category.verdict]. *)
Definition mergeVerdict (category : JsVal) (verdict : string) : option JsVal :=
  if truthy (get category "verdict") then
    key ← ToString (get category "verdict");
    let currentRank := rankOrZero key in
    let calculatedRank := rankOrZero verdict in
    Some (if PrimFloat.ltb calculatedRank currentRank
          then get category "verdict" else JStr verdict)
  else Some (JStr verdict).

(** [verdictRank[v] || 0] for a value used as property name. *)
Definition severity (v : JsVal) : option float := rankOrZero <$> ToString v.

(** The verdict computed on lines 49-55 for a category. *)
Definition computedVerdict (category : JsVal) : option string :=
  maliciousCount ← maliciousCountOf category;
  totalEngines ← totalEnginesOf category;
  riskScore ← riskScoreOf category maliciousCount totalEngines;
  classify riskScore maliciousCount.

(** The callback of [normalized.map], lines 10-74. *)
Definition decideCategory (category : JsVal) : option JsVal :=
  maliciousCount ← maliciousCountOf category;
  totalEngines ← totalEnginesOf category;
  riskScore ← riskScoreOf category maliciousCount totalEngines;
  computed ← classify riskScore maliciousCount;
  verdict ← mergeVerdict category computed;
  Some (JObj (<["total_engines" := jor totalEngines (JNum 1)]>
             (<["malicious_count" := maliciousCount]>
             (<["risk_score" := if is_undefined (get category "risk_score")
                                then riskScore else get category "risk_score"]>
             (<["verdict" := verdict]>
             (ownProps category)))))).

Definition decideVerdict (normalized : JsVal) : option JsVal :=
  match normalized with
  | JArr categories => JArr <$> mapM decideCategory categories
  | _ => Some normalized
  end.

(** Values on which the callback raises no TypeError: a value that has a
    string form, and a result whose [risk_score] can be read and compared. *)
Definition convertible (v : JsVal) : Prop := is_Some (ToString v).

Definition comparable (result : JsVal) : Prop :=
  ∃ risk_score, getProp result "risk_score" = Some risk_score ∧ convertible risk_score.

(** ** WHOIS helpers (src/whoisUtils.js) *)

(** [w.k1 || w.k2 || ... || w.kn] *)
Fixpoint orChain (w : JsVal) (keys : list string) : JsVal :=
  match keys with
  | [] => JUndefined
  | [k] => get w k
  | k :: rest => jor (get w k) (orChain w rest)
  end.

(** The property names tested on lines 15-21. *)
Definition meaningfulKeys : list string :=
  [ "domain_name"; "domain";
    "registrar";
    "org"; "organization";
    "country";
    "creation_date"; "created"; "creationDate";
    "expiration_date"; "expires"; "expirationDate";
    "name_servers"; "nameServers" ].

Definition hasWhoisData (whois : JsVal) : bool :=
  if negb (truthy whois) || negb (typeof_object whois) then false
  else truthy (orChain whois meaningfulKeys).

(** The alias table of lines 34-47: canonical field, aliases in order. *)
Definition whoisAliases : list (string * list string) :=
  [ ("domain_name", ["domain_name"; "domain"; "domainName"]);
    ("registrar", ["registrar"; "sponsoring_registrar"]);
    ("org", ["org"; "organization"; "registrant_organization"; "registrant_org"]);
    ("country", ["country"; "registrant_country"]);
    ("state", ["state"; "registrant_state"]);
    ("city", ["city"; "registrant_city"]);
    ("creation_date", ["creation_date"; "created"; "creationDate"; "created_date"]);
    ("updated_date", ["updated_date"; "updated"; "updatedDate"; "last_updated"]);
    ("expiration_date", ["expiration_date"; "expires"; "expirationDate"; "expiry_date"]);
    ("name_servers", ["name_servers"; "nameServers"; "nserver"]);
    ("status", ["status"; "domain_status"; "domainStatus"]);
    ("registrant_name", ["registrant_name"; "registrant"]);
    ("registrant_email", ["registrant_email"; "email"]);
    ("dnssec", ["dnssec"]) ].

Definition normalizeWhoisFields (whois : JsVal) : JsVal :=
  if negb (truthy whois) then JObj ∅
  else JObj (list_to_map ((λ p, (p.1, orChain whois p.2)) <$> whoisAliases)).

(** ToIntegerOrInfinity followed by TimeClip, on a number given to [new Date]. *)
Definition TimeClip (t : float) : float :=
  if PrimFloat.is_nan t || PrimFloat.is_infinity t then nan
  else if PrimFloat.ltb 8.64e15%float (PrimFloat.abs t) then nan
  else ((if PrimFloat.ltb t 0 then - Math_floor (- t) else Math_floor t) + 0)%float.

(** The time value of [new Date(v)]: a string (or a value whose primitive
    form is a string) is parsed, any other value is converted to a number. *)
Definition Date_new (v : JsVal) : option float :=
  match v with
  | JStr s => Some (Date_parse s)
  | JArr _ | JObj _ => Date_parse <$> ToString v
  | _ => TimeClip <$> ToNumber v
  end.

(** [Array.isArray(d) ? d[0] : d] *)
Definition firstOf (d : JsVal) : JsVal :=
  match d with
  | JArr l => default JUndefined (l !! 0)
  | _ => d
  end.

(** In the four functions below an exception inside [try] is caught and
    [null] is returned. *)
Definition formatWhoisDate (dateValue : JsVal) : JsVal :=
  if negb (truthy dateValue) then JNull
  else
    let dateStr := firstOf dateValue in
    if negb (truthy dateStr) then JNull
    else match Date_new dateStr with
         | None => JNull
         | Some date =>
             if PrimFloat.is_nan date then dateStr
             else JStr (toLocaleDateString date)
         end.

(** [now] is the time value of [new Date()]. *)
Definition calculateDomainAge (now : float) (creationDate : JsVal) : JsVal :=
  if negb (truthy creationDate) then JNull
  else
    let dateStr := firstOf creationDate in
    if negb (truthy dateStr) then JNull
    else match Date_new dateStr with
         | None => JNull
         | Some created =>
             if PrimFloat.is_nan created then JNull
             else
               let ageMs := (now - created)%float in
               let ageYears := (ageMs / (1000 * 60 * 60 * 24 * 365.25))%float in
               JNum (Math_round (ageYears * 10) / 10)%float
         end.

Definition calculateDomainAgeInDays (now : float) (creationDate : JsVal) : JsVal :=
  if negb (truthy creationDate) then JNull
  else
    let dateStr := firstOf creationDate in
    if negb (truthy dateStr) then JNull
    else match Date_new dateStr with
         | None => JNull
         | Some created =>
             if PrimFloat.is_nan created then JNull
             else
               let ageMs := (now - created)%float in
               JNum (Math_floor (ageMs / (1000 * 60 * 60 * 24))%float)
         end.

Definition daysUntilExpiration (now : float) (expirationDate : JsVal) : JsVal :=
  if negb (truthy expirationDate) then JNull
  else
    let dateStr := firstOf expirationDate in
    if negb (truthy dateStr) then JNull
    else match Date_new dateStr with
         | None => JNull
         | Some expires =>
             if PrimFloat.is_nan expires then JNull
             else
               let diffMs := (expires - now)%float in
               JNum (Math_floor (diffMs / (1000 * 60 * 60 * 24))%float)
         end.

(** [days !== null && days < 0] *)
Definition isDomainExpired (now : float) (expirationDate : JsVal) : bool :=
  match daysUntilExpiration now expirationDate with
  | JNum days => PrimFloat.ltb days 0
  | _ => false
  end.

(** [days !== null && days >= 0 && days <= 30] *)
Definition isDomainExpiringSoon (now : float) (expirationDate : JsVal) : bool :=
  match daysUntilExpiration now expirationDate with
  | JNum days => PrimFloat.leb 0 days && PrimFloat.leb days 30
  | _ => false
  end.

(** [arr.filter(s => s && typeof s === 'string')] *)
Definition nonEmptyStrings (l : list JsVal) : list JsVal :=
  filter (λ s, truthy s && typeof_string s = true) l.

Definition formatNameServers (nameServers : JsVal) : JsVal :=
  if negb (truthy nameServers) then JArr []
  else match nameServers with
       | JArr l => JArr (nonEmptyStrings l)
       | JStr _ => JArr [nameServers]
       | _ => JArr []
       end.

Definition getRegistrantInfo (whois : JsVal) : JsVal :=
  if negb (truthy whois) then JNull
  else JObj (list_to_map
    [ ("name", jor (get whois "registrant_name") (jor (get whois "registrant") JNull));
      ("organization", jor (get whois "org") (jor (get whois "registrant_organization") JNull));
      ("email", jor (get whois "registrant_email") (jor (get whois "email") JNull));
      ("country", jor (get whois "country") (jor (get whois "registrant_country") JNull));
      ("state", jor (get whois "state") (jor (get whois "registrant_state") JNull));
      ("city", jor (get whois "city") (jor (get whois "registrant_city") JNull)) ]).

Definition getDomainStatus (whois : JsVal) : JsVal :=
  if negb (truthy whois) then JArr []
  else
    let status := jor (get whois "status") (get whois "domain_status") in
    match status with
    | JArr l => JArr (nonEmptyStrings l)
    | JStr _ => JArr [status]
    | _ => JArr []
    end.

(** [now k] is the clock reading available to the [k]-th call that
    consults the clock (lines 241-243, 260, 261). *)
Definition parseWhoisData (now : nat → float) (whois : JsVal) : JsVal :=
  if negb (hasWhoisData whois) then JNull
  else
    let normalized := normalizeWhoisFields whois in
    let domainAge := calculateDomainAge (now 0) (get normalized "creation_date") in
    let domainAgeInDays := calculateDomainAgeInDays (now 1) (get normalized "creation_date") in
    let daysToExpiry := daysUntilExpiration (now 2) (get normalized "expiration_date") in
    JObj (list_to_map
      [ ("domain", jor (get normalized "domain_name") JNull);
        ("registrar", jor (get normalized "registrar") JNull);
        ("registrant", getRegistrantInfo normalized);
        ("dates", JObj (list_to_map
           [ ("created", formatWhoisDate (get normalized "creation_date"));
             ("updated", formatWhoisDate (get normalized "updated_date"));
             ("expires", formatWhoisDate (get normalized "expiration_date"));
             ("age", domainAge);
             ("ageInDays", domainAgeInDays);
             ("daysToExpiry", daysToExpiry) ]));
        ("nameServers", formatNameServers (get normalized "name_servers"));
        ("status", getDomainStatus normalized);
        ("dnssec", jor (get normalized "dnssec") JNull);
        ("isExpired", JBool (isDomainExpired (now 3) (get normalized "expiration_date")));
        ("isExpiringSoon", JBool (isDomainExpiringSoon (now 4) (get normalized "expiration_date")));
        ("raw", whois) ]).

(** ** Worked inputs *)

Definition obj (fields : list (string * JsVal)) : JsVal := JObj (list_to_map fields).

(** The category of SAMPLE_RESPONSE (src/sampleResponse.js). *)
Definition sampleCategory : JsVal :=
  obj [ ("verdict", JStr "SUSPICIOUS");
        ("risk_score", JNum 66);
        ("confidence", JStr "Medium");
        ("malicious_count", JNum 2);
        ("total_engines", JNum 60);
        ("detections", JArr
           [ obj [ ("engine", JStr "AV-Test"); ("result", JStr "suspicious");
                   ("threat_type", JStr "phishing") ];
             obj [ ("engine", JStr "MalDetect"); ("result", JStr "malicious");
                   ("threat_type", JStr "malware") ] ]);
        ("results", JArr
           [ obj [ ("input_url", JStr "https://example-bad.com");
                   ("domain", JStr "example-bad.com");
                   ("ip", JStr "198.51.100.42");
                   ("whois", obj [ ("registrar", JStr "BadRegistrar"); ("org", JStr "BadCo");
                                   ("country", JStr "US");
                                   ("creation_date", JArr [JStr "2024-01-01"]) ]);
                   ("dns", obj [ ("A", JArr [JStr "198.51.100.42"]); ("MX", JArr []);
                                 ("NS", JArr [JStr "ns1.bad.com"]) ]);
                   ("ssl", obj [ ("subject", JArr [JArr [JStr "CN"; JStr "example-bad.com"]]);
                                 ("issuer", JArr [JArr [JStr "C"; JStr "Fake CA"]]);
                                 ("notBefore", JStr "2024-01-01");
                                 ("notAfter", JStr "2025-01-01") ]);
                   ("favicon_url", JNull);
                   ("screenshot", obj [ ("image_url", JNull) ]) ] ]);
        ("count", JNum 1) ].

Definition SAMPLE_RESPONSE : JsVal := JArr [sampleCategory].

(** A category with no engines whose own score sits just below 70. *)
Definition boundaryCategory : JsVal :=
  obj [ ("risk_score", JNum 69); ("malicious_count", JNum 2); ("total_engines", JNum 0) ].

Definition boundaryDecided : JsVal :=
  obj [ ("verdict", JStr "SUSPICIOUS"); ("risk_score", JNum 69);
        ("malicious_count", JNum 2); ("total_engines", JNum 1) ].

(** A category with one malicious engine out of zero, before and after one
    and two runs of decideVerdict. *)
Definition zeroEnginesCategory : JsVal :=
  obj [ ("malicious_count", JNum 1); ("total_engines", JNum 0) ].

Definition zeroEnginesOnce : JsVal :=
  obj [ ("verdict", JStr "CLEAN"); ("risk_score", JNum 0);
        ("malicious_count", JNum 1); ("total_engines", JNum 1) ].

Definition zeroEnginesTwice : JsVal :=
  obj [ ("verdict", JStr "MALICIOUS"); ("risk_score", JNum 0);
        ("malicious_count", JNum 1); ("total_engines", JNum 1) ].

(** Payloads for the shape detector. *)
Definition zeroScorePayload : JsVal := obj [ ("risk_score", JNum 0) ].

Definition verdictOnlyPayload : gmap string JsVal := list_to_map [ ("verdict", JStr "X") ].

Definition bareCategoryPayload : JsVal := JArr [ obj [ ("verdict", JStr "CLEAN") ] ].

Definition bareCategoryNormalized : JsVal :=
  obj [ ("verdict", JStr "CLEAN"); ("results", JUndefined) ].

Definition bareCategoryDecided : JsVal :=
  obj [ ("verdict", JStr "CLEAN"); ("results", JUndefined); ("risk_score", JNum 0);
        ("malicious_count", JNum 0); ("total_engines", JNum 1) ].

(** A scan result whose [favicon_url] is the empty string. *)
Definition emptyFaviconResult : JsVal := obj [ ("favicon_url", JStr "") ].

Definition emptyFaviconNormalized : JsVal :=
  obj [ ("favicon_url", JNull); ("favicon_base64", JNull);
        ("favicon_src", JNull); ("screenshot_src", JNull) ].

(** A WHOIS record that names its registrar under an alias only. *)
Definition aliasOnlyWhois : JsVal :=
  obj [ ("sponsoring_registrar", JStr "Example Registrar, Inc.") ].

(** A category whose verdict arrives wrapped in an array. *)
Definition arrayVerdictCategory : JsVal :=
  obj [ ("verdict", JArr [JStr "MALICIOUS"]) ].

Definition arrayVerdictDecided : JsVal :=
  obj [ ("verdict", JArr [JStr "MALICIOUS"]); ("risk_score", JNum 0);
        ("malicious_count", JNum 0); ("total_engines", JNum 1) ].

(** A category whose verdict is an array around SUSPICIOUS. *)
Definition wrappedSuspiciousCategory : JsVal :=
  obj [ ("verdict", JArr [JStr "SUSPICIOUS"]); ("malicious_count", JNum 0);
        ("total_engines", JNum 70) ].

Definition wrappedSuspiciousDecided : JsVal :=
  obj [ ("verdict", JArr [JStr "SUSPICIOUS"]); ("risk_score", JNum 0);
        ("malicious_count", JNum 0); ("total_engines", JNum 70) ].

(** A category with three detections and no counts of its own. *)
Definition detectionsOnlyCategory : JsVal :=
  obj [ ("detections", JArr
           [ obj [ ("engine", JStr "AV-Test") ];
             obj [ ("engine", JStr "MalDetect") ];
             obj [ ("engine", JStr "PhishGuard") ] ]) ].

(** A payload that is a single scan result. *)
Definition bareResultPayload : gmap string JsVal :=
  list_to_map [ ("domain", JStr "example.com"); ("ip", JStr "198.51.100.7") ].

(** A sub-verdict as an antivirus aggregator reports it. *)
Definition vtSample : JsVal :=
  obj [ ("verdict", JStr "MALICIOUS"); ("risk_score", JNum 85);
        ("malicious_count", JNum 12); ("total_engines", JNum 70) ].

(** A history item, and a browser stand-in for the worked examples: it
    accepts every text and reads every text back as the one-item history. *)
Definition historyItem : JsVal :=
  obj [ ("url", JStr "https://example.com");
        ("when", JStr "2025-01-01T00:00:00.000Z");
        ("result", JArr []) ].

Definition sampleBrowser : Browser :=
  {| JSON_parse := λ _, Some (JArr [historyItem]);
     JSON_stringify := λ _, "[item]";
     quotaExceeded := λ _, false |}.

(** ** Third-party sub-verdict parser (parseVTResult, isVTMalicious; src/unnamed/part_001) *)

(** [Number.isFinite(Number(v)) ? Number(v) : 0] *)
Definition finiteOrZero (v : JsVal) : option float :=
  x ← ToNumber v; Some (if PrimFloat.is_finite x then x else 0%float).

(** [riskScore > 70 ? 'High' : riskScore > 30 ? 'Medium' : 'Low'] *)
Definition confidenceOf (riskScore : float) : string :=
  if PrimFloat.ltb 70 riskScore then "High"
  else if PrimFloat.ltb 30 riskScore then "Medium"
  else "Low".

Definition parseVTResult (vtData : JsVal) : option JsVal :=
  let safe := if truthy vtData && typeof_object vtData then vtData else JObj ∅ in
  let verdict := if typeof_string (get safe "verdict") then get safe "verdict"
                 else JStr "UNKNOWN" in
  riskScore ← finiteOrZero (get safe "risk_score");
  maliciousCount ← finiteOrZero (get safe "malicious_count");
  totalEngines ← finiteOrZero (get safe "total_engines");
  let confidence := if typeof_string (get safe "confidence") then get safe "confidence"
                    else JStr (confidenceOf riskScore) in
  let detections := match get safe "detections" with
                    | JArr l => JArr l
                    | _ => JArr []
                    end in
  Some (obj [ ("verdict", verdict);
              ("risk_score", JNum riskScore);
              ("confidence", confidence);
              ("malicious_count", JNum maliciousCount);
              ("total_engines", JNum totalEngines);
              ("detections", detections);
              ("count", JNum 1) ]).

(** Line 3: the object the fields are read from. *)
Definition safeOf (vtData : JsVal) : JsVal :=
  if truthy vtData && typeof_object vtData then vtData else JObj ∅.

(** [v === s] for a string literal [s] *)
Definition strictEqualsString (v : JsVal) (s : string) : bool :=
  match v with
  | JStr s' => bool_decide (s' = s)
  | _ => false
  end.

(** [||] does not convert the count when the verdict already decides. *)
Definition isVTMalicious (vtData : JsVal) : option bool :=
  if negb (truthy vtData) then Some false
  else if strictEqualsString (get vtData "verdict") "MALICIOUS" then Some true
  else x ← ToNumber (get vtData "malicious_count"); Some (PrimFloat.ltb 0 x).

(** ** Domain-age risk bucket (getDomainAgeRisk, src/whoisUtils.js) *)

(** [v < n] against a number [n] *)
Definition js_lt (v : JsVal) (n : float) : option bool :=
  x ← ToNumber v; Some (PrimFloat.ltb x n).

Definition riskBucket (level color label : string) : JsVal :=
  obj [ ("level", JStr level); ("color", JStr color); ("label", JStr label) ].

Definition getDomainAgeRisk (ageYears : JsVal) : option JsVal :=
  match ageYears with
  | JNull | JUndefined => Some (riskBucket "unknown" "#6b7280" "Unknown")
  | _ =>
      js_lt ageYears 0.5 ≫= λ b1 : bool,
      if b1 then Some (riskBucket "high" "#ef4444" "Very New (High Risk)")
      else
        js_lt ageYears 1 ≫= λ b2 : bool,
        if b2 then Some (riskBucket "medium" "#f59e0b" "New (Medium Risk)")
        else
          js_lt ageYears 3 ≫= λ b3 : bool,
          if b3 then Some (riskBucket "low" "#10b981" "Established")
          else Some (riskBucket "minimal" "#059669" "Well Established")
  end.

(** ** Scan history (loadHistory ... removeHistoryItem, src/n8nClient.js lines 96-183) *)

Definition MAX_HISTORY_ITEMS : nat := 10.

(** The elements of the array that loadHistory returns; every exception is
    caught and gives the empty array. *)
Definition loadHistory (browser : Browser) (st : Store) : list JsVal :=
  match st with
  | Denied => []
  | Holding None => []
  | Holding (Some raw) =>
      if bool_decide (raw = "") then []
      else match JSON_parse browser raw with
           | Some (JArr parsed) => parsed
           | _ => []
           end
  end.

(** The returned boolean and the store left behind. *)
Definition saveHistory (browser : Browser) (history : JsVal) (st : Store)
  : bool * Store :=
  match history with
  | JArr l =>
      let trimmed := take MAX_HISTORY_ITEMS l in
      let text := JSON_stringify browser (JArr trimmed) in
      match st with
      | Denied => (false, st)
      | Holding _ => if quotaExceeded browser text then (false, st)
                     else (true, Holding (Some text))
      end
  | _ => (false, st)
  end.

(** [when] is [new Date().toISOString()]. *)
Definition addToHistory (browser : Browser) (when : string) (url result : JsVal)
    (st : Store) : list JsVal * Store :=
  let history := loadHistory browser st in
  let newItem := obj [ ("url", url); ("when", JStr when); ("result", result) ] in
  let updated := newItem :: history in
  (updated, (saveHistory browser (JArr updated) st).2).

Definition clearHistory (st : Store) : bool * Store :=
  match st with
  | Denied => (false, st)
  | Holding _ => (true, Holding None)
  end.

(** [index] is an integral number, the position of an item in the list
    shown; [history.splice(index, 1)] removes the item at that position. *)
Definition removeHistoryItem (browser : Browser) (index : Z) (st : Store)
  : list JsVal * Store :=
  let history := loadHistory browser st in
  if ((0 <=? index)%Z && (index <? Z.of_nat (length history))%Z) then
    let history' := delete (Z.to_nat index) history in
    (history', (saveHistory browser (JArr history') st).2)
  else (history, st).

(** ** Properties of the value model *)

Lemma get_insert_eq o k v : get (JObj (<[k := v]> o)) k = v.
Proof. unfold get. by rewrite lookup_insert_eq. Qed.

Lemma get_insert_ne o k k' v : k ≠ k' → get (JObj (<[k := v]> o)) k' = get (JObj o) k'.
Proof. intros Hne. unfold get. by rewrite lookup_insert_ne. Qed.

Lemma get_not_undefined_obj c k : get c k ≠ JUndefined → ∃ o, c = JObj o.
Proof. destruct c; simpl; try done. eauto. Qed.

(** Spreading a string gives one field per UTF-16 code unit. *)
Lemma chars_examples :
  chars "abc" = [JStr "a"; JStr "b"; JStr "c"] ∧
  chars "Ω" = [JStr "Ω"] ∧
  ownProps (JStr "Ω") = {[ "0" := JStr "Ω" ]} ∧
  chars "€9" = [JStr "€"; JStr "9"] ∧
  chars "😀" = [JStr (surrogate 0xD83D); JStr (surrogate 0xDE00)].
Proof. repeat split; vm_compute; reflexivity. Qed.

(** The decimal form of an index starts with a digit. *)
Lemma pretty_N_go_digit x :
  ∀ s, (0 < x)%N →
    ∃ d rest, pretty_N_go x s = String d rest ∧
              (48 ≤ Ascii.N_of_ascii d ≤ 57)%N.
Proof.
  induction (N.lt_wf_0 x) as [x _ IH]. intros s Hx.
  rewrite pretty_N_go_step by done.
  destruct (decide (x `div` 10 = 0)%N) as [E | E].
  - rewrite E, pretty_N_go_0. eexists _, _. split; [done|].
    pose proof (N.mod_upper_bound x 10 ltac:(done)) as Hlt.
    set (n := (x `mod` 10)%N) in *. clearbody n.
    assert (n = 0 ∨ n = 1 ∨ n = 2 ∨ n = 3 ∨ n = 4 ∨ n = 5 ∨ n = 6 ∨ n = 7 ∨
            n = 8 ∨ n = 9)%N as Hd by lia.
    repeat (destruct Hd as [-> | Hd]; [vm_compute; split; discriminate|]).
    rewrite Hd. vm_compute. split; discriminate.
  - apply IH; [apply N.div_lt; lia | by apply N.neq_0_lt_0].
Qed.

Lemma pretty_nat_digit (i : nat) :
  ∃ d rest, pretty i = String d rest ∧ (48 ≤ Ascii.N_of_ascii d ≤ 57)%N.
Proof.
  unfold pretty, pretty_nat, pretty, pretty_N.
  destruct (decide (N.of_nat i = 0)%N) as [_ | Hne].
  - eexists _, _. split; [done|]. vm_compute. split; discriminate.
  - apply pretty_N_go_digit. lia.
Qed.

(** A property name that does not start with a digit is no index. *)
Lemma indexed_lookup_name l d rest :
  ¬ (48 ≤ Ascii.N_of_ascii d ≤ 57)%N → indexed l !! String d rest = None.
Proof.
  intros Hd. unfold indexed. apply not_elem_of_list_to_map_1.
  intros Hin. apply list_elem_of_fmap in Hin as ([k v] & Hk & Hin). simpl in Hk.
  apply elem_of_lookup_imap in Hin as (i & y & [= -> ->] & _).
  destruct (pretty_nat_digit i) as (d' & rest' & E & Hd').
  rewrite E in Hk. injection Hk as -> _. done.
Qed.

(** Such a name reads the same from a value and from its spread. *)
Lemma ownProps_name v d rest :
  ¬ (48 ≤ Ascii.N_of_ascii d ≤ 57)%N →
  default JUndefined (ownProps v !! String d rest) = get v (String d rest).
Proof.
  intros Hd. destruct v; simpl; try done; by rewrite indexed_lookup_name.
Qed.

Lemma jor_truthy a b : truthy a = true → jor a b = a.
Proof. unfold jor. by intros ->. Qed.

Lemma truthy_jor_one v : truthy (jor v (JNum 1)) = true.
Proof. unfold jor. destruct (truthy v) eqn:E; [done | reflexivity]. Qed.

Lemma truthy_not_undefined v : truthy v = true → v ≠ JUndefined.
Proof. by intros H ->. Qed.

Lemma truthy_not_zero v : truthy v = true → v ≠ JNum 0 ∧ v ≠ JNum neg_zero ∧ v ≠ JNull.
Proof. intros H. repeat split; intros ->; vm_compute in H; done. Qed.

(** [Math.round] and [Math.floor] on sample arguments: ties go up, zero
    keeps its sign, and a quotient just below a tie is rounded down. *)
Lemma Math_round_examples :
  Math_round 2.5 = 3%float ∧ Math_round (-2.5) = (-2)%float ∧
  Math_round (-0.5) = neg_zero ∧ Math_round 0.25 = 0%float ∧
  Math_round (2 / 60 * 100) = 3%float ∧
  Math_round (29 / 200 * 100) = 14%float ∧
  Math_round (1 / 0) = infinity ∧ Math_round nan = nan ∧
  Math_floor 7.75 = 7%float ∧ Math_floor (-7.25) = (-8)%float ∧
  Math_floor (-0.5) = (-1)%float ∧ Math_max 0 70 = 70%float.
Proof. repeat split; vm_compute; reflexivity. Qed.

(** ** Properties of decideVerdict *)

Lemma decideVerdict_lookup cats outs i c :
  decideVerdict (JArr cats) = Some (JArr outs) → cats !! i = Some c →
  ∃ out, outs !! i = Some out ∧ decideCategory c = Some out.
Proof.
  unfold decideVerdict. intros H Hc.
  apply fmap_Some in H as (l & Hl & [= ->]).
  apply mapM_Some_1 in Hl.
  destruct (Forall2_lookup_l _ _ _ _ _ Hl Hc) as (out & Hout & Hd). eauto.
Qed.

Lemma decideVerdict_singleton c :
  decideVerdict (JArr [c]) = (λ out, JArr [out]) <$> decideCategory c.
Proof. unfold decideVerdict. simpl. by destruct (decideCategory c). Qed.

(** The locals of one run of the callback, and the object it returns. *)
Lemma decideCategory_Some c out :
  decideCategory c = Some out →
  ∃ maliciousCount totalEngines riskScore computed verdict,
    maliciousCountOf c = Some maliciousCount ∧
    totalEnginesOf c = Some totalEngines ∧
    riskScoreOf c maliciousCount totalEngines = Some riskScore ∧
    classify riskScore maliciousCount = Some computed ∧
    mergeVerdict c computed = Some verdict ∧
    out = JObj (<["total_engines" := jor totalEngines (JNum 1)]>
               (<["malicious_count" := maliciousCount]>
               (<["risk_score" := if is_undefined (get c "risk_score")
                                  then riskScore else get c "risk_score"]>
               (<["verdict" := verdict]> (ownProps c))))).
Proof.
  unfold decideCategory. intros H.
  apply bind_Some in H as (m & Hm & H).
  apply bind_Some in H as (t & Ht & H).
  apply bind_Some in H as (rs & Hrs & H).
  apply bind_Some in H as (v & Hv & H).
  apply bind_Some in H as (vd & Hvd & [= <-]).
  by exists m, t, rs, v, vd.
Qed.

Lemma decideCategory_computed c out :
  decideCategory c = Some out → is_Some (computedVerdict c).
Proof.
  intros H. apply decideCategory_Some in H
    as (m & t & rs & v & vd & Hm & Ht & Hrs & Hv & _).
  unfold computedVerdict. rewrite Hm, Ht. simpl. rewrite Hrs. simpl. by rewrite Hv.
Qed.

(** The four fields written by the callback. *)
Lemma decided_fields c maliciousCount totalEngines riskScore verdict :
  let out := JObj (<["total_engines" := jor totalEngines (JNum 1)]>
               (<["malicious_count" := maliciousCount]>
               (<["risk_score" := if is_undefined (get c "risk_score")
                                  then riskScore else get c "risk_score"]>
               (<["verdict" := verdict]> (ownProps c))))) in
  get out "total_engines" = jor totalEngines (JNum 1) ∧
  get out "malicious_count" = maliciousCount ∧
  get out "risk_score" = (if is_undefined (get c "risk_score")
                          then riskScore else get c "risk_score") ∧
  get out "verdict" = verdict.
Proof.
  simpl. repeat split.
  - by rewrite lookup_insert_eq.
  - rewrite lookup_insert_ne by done. by rewrite lookup_insert_eq.
  - do 2 (rewrite lookup_insert_ne by done). by rewrite lookup_insert_eq.
  - do 3 (rewrite lookup_insert_ne by done). by rewrite lookup_insert_eq.
Qed.

Lemma is_undefined_false v : is_undefined v = false ↔ v ≠ JUndefined.
Proof. destruct v; simpl; split; done. Qed.

(** C1 (amended): the [risk_score] of an output category is the
    [risk_score] the category came with whenever it has one; only when it
    has none is it the recomputed score, that is
    [Math.round((maliciousCount / totalEngines) * 100)] when the (possibly
    overridden) [totalEngines] is greater than 0, and 0 otherwise. *)
Theorem C1_output_risk_score cats outs i c out :
  decideVerdict (JArr cats) = Some (JArr outs) →
  cats !! i = Some c → outs !! i = Some out →
  ∃ maliciousCount totalEngines,
    maliciousCountOf c = Some maliciousCount ∧
    totalEnginesOf c = Some totalEngines ∧
    (get c "risk_score" ≠ JUndefined →
       get out "risk_score" = get c "risk_score") ∧
    (get c "risk_score" = JUndefined → js_gt totalEngines 0 = Some true →
       ∃ q, js_div maliciousCount totalEngines = Some q ∧
            get out "risk_score" = JNum (Math_round (q * 100)%float)) ∧
    (get c "risk_score" = JUndefined → js_gt totalEngines 0 = Some false →
       get out "risk_score" = JNum 0).
Proof.
  intros Hd Hc Hout.
  destruct (decideVerdict_lookup _ _ _ _ Hd Hc) as (out' & Hout' & Hcat).
  assert (out' = out) as -> by congruence.
  apply decideCategory_Some in Hcat
    as (m & t & rs & v & vd & Hm & Ht & Hrs & Hv & Hvd & ->).
  exists m, t. split; [done|]. split; [done|].
  destruct (decided_fields c m t rs vd) as (_ & _ & Hr & _). rewrite Hr. clear Hr.
  unfold riskScoreOf in Hrs.
  repeat split.
  - intros Hne. apply is_undefined_false in Hne. by rewrite Hne.
  - intros Hu Hgt. rewrite Hu. simpl. rewrite Hgt in Hrs. simpl in Hrs.
    apply bind_Some in Hrs as (q & Hq & [= <-]). eauto.
  - intros Hu Hgt. rewrite Hu. simpl. rewrite Hgt in Hrs. simpl in Hrs.
    rewrite Hu in Hrs. simpl in Hrs. congruence.
Qed.

Lemma computedVerdict_Some c v :
  computedVerdict c = Some v →
  ∃ maliciousCount totalEngines riskScore,
    maliciousCountOf c = Some maliciousCount ∧
    totalEnginesOf c = Some totalEngines ∧
    riskScoreOf c maliciousCount totalEngines = Some riskScore ∧
    classify riskScore maliciousCount = Some v.
Proof.
  unfold computedVerdict. intros H.
  apply bind_Some in H as (m & Hm & H).
  apply bind_Some in H as (t & Ht & H).
  apply bind_Some in H as (rs & Hrs & H).
  by exists m, t, rs.
Qed.

(** The three-way classification of lines 49-55, read off its result. *)
Lemma classify_spec riskScore maliciousCount v :
  classify riskScore maliciousCount = Some v →
  let malicious := js_ge riskScore 70 = Some true ∨ js_ge maliciousCount 10 = Some true in
  let suspicious := js_ge riskScore 40 = Some true ∨ js_ge maliciousCount 3 = Some true in
  (v = "MALICIOUS" ↔ malicious) ∧
  (v = "SUSPICIOUS" ↔ ¬ malicious ∧ suspicious) ∧
  (v = "CLEAN" ↔ ¬ malicious ∧ ¬ suspicious).
Proof.
  unfold classify. intros H.
  apply bind_Some in H as (b1 & Hb1 & H).
  apply bind_Some in H as (mal & Hmal & H).
  destruct mal.
  - injection H as <-.
    assert (js_ge riskScore 70 = Some true ∨ js_ge maliciousCount 10 = Some true) as Hm.
    { destruct b1; [by left | by right]. }
    simpl. repeat split; try done; tauto.
  - destruct b1; [done|].
    assert (¬ (js_ge riskScore 70 = Some true ∨ js_ge maliciousCount 10 = Some true)) as Hm.
    { intros [E|E]; congruence. }
    apply bind_Some in H as (b2 & Hb2 & H).
    apply bind_Some in H as (sus & Hsus & H).
    destruct sus.
    + injection H as <-.
      assert (js_ge riskScore 40 = Some true ∨ js_ge maliciousCount 3 = Some true) as Hs.
      { destruct b2; [by left | by right]. }
      simpl. repeat split; try done; tauto.
    + injection H as <-. destruct b2; [done|].
      assert (¬ (js_ge riskScore 40 = Some true ∨ js_ge maliciousCount 3 = Some true)) as Hs.
      { intros [E|E]; congruence. }
      simpl. repeat split; try done; tauto.
Qed.

Lemma classify_literal riskScore maliciousCount v :
  classify riskScore maliciousCount = Some v →
  v = "MALICIOUS" ∨ v = "SUSPICIOUS" ∨ v = "CLEAN".
Proof.
  unfold classify. intros H.
  apply bind_Some in H as (b1 & Hb1 & H).
  apply bind_Some in H as ([] & Hmal & H); [injection H as <-; tauto|].
  apply bind_Some in H as (b2 & Hb2 & H).
  apply bind_Some in H as ([] & Hsus & H); injection H as <-; tauto.
Qed.

(** C2 (amended): for every category processed by decideVerdict the freshly
    computed verdict is MALICIOUS iff [riskScore >= 70] or
    [maliciousCount >= 10], otherwise SUSPICIOUS iff [riskScore >= 40] or
    [maliciousCount >= 3], otherwise CLEAN.  In particular riskScore 69 with
    maliciousCount 2 is SUSPICIOUS (69 is at least 40), riskScore 39 with
    maliciousCount 2 is CLEAN, riskScore 70 is MALICIOUS, and riskScore 40
    with maliciousCount 0 is SUSPICIOUS. *)
Theorem C2_classification :
  (∀ cats outs i c,
     decideVerdict (JArr cats) = Some (JArr outs) → cats !! i = Some c →
     ∃ maliciousCount totalEngines riskScore computed,
       maliciousCountOf c = Some maliciousCount ∧
       totalEnginesOf c = Some totalEngines ∧
       riskScoreOf c maliciousCount totalEngines = Some riskScore ∧
       computedVerdict c = Some computed ∧
       let malicious :=
         js_ge riskScore 70 = Some true ∨ js_ge maliciousCount 10 = Some true in
       let suspicious :=
         js_ge riskScore 40 = Some true ∨ js_ge maliciousCount 3 = Some true in
       (computed = "MALICIOUS" ↔ malicious) ∧
       (computed = "SUSPICIOUS" ↔ ¬ malicious ∧ suspicious) ∧
       (computed = "CLEAN" ↔ ¬ malicious ∧ ¬ suspicious)) ∧
  classify (JNum 69) (JNum 2) = Some "SUSPICIOUS" ∧
  classify (JNum 39) (JNum 2) = Some "CLEAN" ∧
  (∀ maliciousCount, classify (JNum 70) maliciousCount = Some "MALICIOUS") ∧
  classify (JNum 40) (JNum 0) = Some "SUSPICIOUS".
Proof.
  split; [|repeat split; intros; vm_compute; reflexivity].
  intros cats outs i c Hd Hc.
  destruct (decideVerdict_lookup _ _ _ _ Hd Hc) as (out & _ & Hcat).
  destruct (decideCategory_computed _ _ Hcat) as [v Hv].
  destruct (computedVerdict_Some _ _ Hv) as (m & t & rs & Hm & Ht & Hrs & Hcl).
  exists m, t, rs, v. repeat (split; [done|]).
  by apply classify_spec.
Qed.

Lemma rankOrZero_values key :
  rankOrZero key = 3%float ∨ rankOrZero key = 2%float ∨ rankOrZero key = 1%float ∨
  rankOrZero key = nan ∨ rankOrZero key = 0%float.
Proof. unfold rankOrZero. repeat case_bool_decide; auto 10. Qed.

Lemma rankOrZero_irrefl key : PrimFloat.ltb (rankOrZero key) (rankOrZero key) = false.
Proof.
  destruct (rankOrZero_values key) as [-> | [-> | [-> | [-> | ->]]]]; reflexivity.
Qed.

(** A rank above the rank of a computed verdict is the rank of MALICIOUS
    or of SUSPICIOUS, and comes from that very property name. *)
Lemma rankOrZero_above computed key :
  computed = "MALICIOUS" ∨ computed = "SUSPICIOUS" ∨ computed = "CLEAN" →
  PrimFloat.ltb (rankOrZero computed) (rankOrZero key) = true →
  key = "MALICIOUS" ∨ key = "SUSPICIOUS".
Proof.
  intros Hc. unfold rankOrZero at 2.
  repeat case_bool_decide; auto;
    destruct Hc as [-> | [-> | ->]]; vm_compute; done.
Qed.

Lemma mergeVerdict_spec c computed verdict :
  mergeVerdict c computed = Some verdict →
  (truthy (get c "verdict") = true →
     ∃ currentRank, severity (get c "verdict") = Some currentRank ∧
       verdict = if PrimFloat.ltb (rankOrZero computed) currentRank
                 then get c "verdict" else JStr computed) ∧
  (truthy (get c "verdict") = false → verdict = JStr computed).
Proof.
  unfold mergeVerdict, severity. intros H. split; intros Ht; rewrite Ht in H.
  - apply bind_Some in H as (key & Hkey & [= <-]).
    exists (rankOrZero key). rewrite Hkey. done.
  - congruence.
Qed.

(** X25: the escalation merge on a verdict that is a string or falsy.
    An explicit MALICIOUS always comes out MALICIOUS; an explicit
    SUSPICIOUS comes out SUSPICIOUS unless the computed verdict is
    MALICIOUS, which then wins; every other string (CLEAN, UNKNOWN, a
    lowercase spelling, the name of an inherited property) and every falsy
    verdict gives the computed verdict, which is one of the three
    literals. *)
Theorem X25_merge_string_verdict cats outs i c out :
  decideVerdict (JArr cats) = Some (JArr outs) →
  cats !! i = Some c → outs !! i = Some out →
  ∃ computed,
    computedVerdict c = Some computed ∧
    (computed = "MALICIOUS" ∨ computed = "SUSPICIOUS" ∨ computed = "CLEAN") ∧
    (get c "verdict" = JStr "MALICIOUS" → get out "verdict" = JStr "MALICIOUS") ∧
    (get c "verdict" = JStr "SUSPICIOUS" →
       get out "verdict" = JStr (if bool_decide (computed = "MALICIOUS")
                                 then "MALICIOUS" else "SUSPICIOUS")) ∧
    (∀ s, get c "verdict" = JStr s → s ≠ "MALICIOUS" → s ≠ "SUSPICIOUS" →
          get out "verdict" = JStr computed) ∧
    (truthy (get c "verdict") = false → get out "verdict" = JStr computed).
Proof.
  intros Hd Hc Hout.
  destruct (decideVerdict_lookup _ _ _ _ Hd Hc) as (out' & Hout' & Hcat).
  assert (out' = out) as -> by congruence.
  apply decideCategory_Some in Hcat
    as (m & t & rs & v & vd & Hm & Ht & Hrs & Hv & Hvd & ->).
  pose proof (classify_literal _ _ _ Hv) as Hlit.
  exists v. split.
  { unfold computedVerdict. rewrite Hm, Ht. simpl. rewrite Hrs. done. }
  split; [done|].
  destruct (decided_fields c m t rs vd) as (_ & _ & _ & ->).
  destruct (mergeVerdict_spec _ _ _ Hvd) as [Hyes Hno].
  split; [|split; [|split; [|done]]].
  - intros Hin. rewrite Hin in Hyes.
    destruct (Hyes eq_refl) as (cur & Hcur & ->). injection Hcur as <-.
    destruct Hlit as [-> | [-> | ->]]; vm_compute; reflexivity.
  - intros Hin. rewrite Hin in Hyes.
    destruct (Hyes eq_refl) as (cur & Hcur & ->). injection Hcur as <-.
    destruct Hlit as [-> | [-> | ->]]; vm_compute; reflexivity.
  - intros s Hs Hm' Hs'. destruct (truthy (get c "verdict")) eqn:Htr; [|by apply Hno].
    destruct (Hyes eq_refl) as (cur & Hcur & ->).
    rewrite Hs in Hcur. injection Hcur as <-.
    destruct (PrimFloat.ltb (rankOrZero v) (rankOrZero s)) eqn:Hlt; [|done].
    by destruct (rankOrZero_above _ _ Hlit Hlt).
Qed.

(** *** Categories on which the callback returns *)

Lemma convertible_ToNumber v : convertible v → is_Some (ToNumber v).
Proof.
  unfold convertible. destruct v; simpl; try (by eexists).
  - intros [s Hs]. rewrite Hs. by eexists.
  - intros [s Hs]. rewrite Hs. by eexists.
Qed.

Lemma convertible_js_gt v n : convertible v → is_Some (js_gt v n).
Proof.
  intros H. destruct (convertible_ToNumber _ H) as [x Hx].
  unfold js_gt. rewrite Hx. by eexists.
Qed.

Lemma convertible_js_ge v n : convertible v → is_Some (js_ge v n).
Proof.
  intros H. destruct (convertible_ToNumber _ H) as [x Hx].
  unfold js_ge. rewrite Hx. by eexists.
Qed.

Lemma convertible_JNum x : convertible (JNum x).
Proof. by eexists. Qed.

Lemma forEachCount_total l :
  Forall comparable l → ∀ maliciousCount, is_Some (forEachCount maliciousCount l).
Proof.
  induction 1 as [|result rest (rs & Hrs & Hconv) _ IH]; intros m; simpl.
  - by eexists.
  - unfold countStep. rewrite Hrs. simpl.
    destruct (truthy rs); simpl; [|apply IH].
    destruct (convertible_js_gt rs 50 Hconv) as [b ->]. simpl. apply IH.
Qed.

Lemma classify_total riskScore maliciousCount :
  convertible riskScore → convertible maliciousCount →
  is_Some (classify riskScore maliciousCount).
Proof.
  intros Hr Hm. unfold classify.
  destruct (convertible_js_ge riskScore 70 Hr) as [b1 ->].
  destruct (convertible_js_ge maliciousCount 10 Hm) as [b2 ->].
  destruct (convertible_js_ge riskScore 40 Hr) as [b3 ->].
  destruct (convertible_js_ge maliciousCount 3 Hm) as [b4 ->].
  destruct b1, b2, b3, b4; by eexists.
Qed.

(** decideVerdict's callback returns on every category that is neither
    [null] nor [undefined], whose results can be read and compared, and
    whose counts, score and verdict have a string form. *)
Lemma decideCategory_total c :
  c ≠ JNull → c ≠ JUndefined →
  (∀ l, get c "results" = JArr l → Forall comparable l) →
  convertible (get c "malicious_count") →
  convertible (get c "total_engines") →
  convertible (get c "risk_score") →
  convertible (get c "verdict") →
  is_Some (decideCategory c).
Proof.
  intros Hnull Hundef Hres Hmc Hte Hrs Hvd.
  assert (∃ counts, derivedCounts c = Some counts) as [counts Hcounts].
  { unfold derivedCounts.
    assert (getProp c "results" = Some (get c "results")) as -> by (by destruct c).
    simpl. destruct (get c "results") eqn:E; try (by eexists).
    destruct (forEachCount_total l (Hres l eq_refl) 0%float) as [m ->]. by eexists. }
  assert (convertible (explicitOr (get c "malicious_count") counts.1)) as Hm.
  { unfold explicitOr. destruct (is_undefined _); [apply convertible_JNum | done]. }
  assert (convertible (explicitOr (get c "total_engines") counts.2)) as Ht.
  { unfold explicitOr. destruct (is_undefined _); [apply convertible_JNum | done]. }
  unfold decideCategory, maliciousCountOf, totalEnginesOf. rewrite Hcounts. simpl.
  set (m := explicitOr (get c "malicious_count") counts.1) in *.
  set (t := explicitOr (get c "total_engines") counts.2) in *.
  assert (∃ rs, riskScoreOf c m t = Some rs ∧ convertible rs) as (rs & -> & Hrs').
  { unfold riskScoreOf, js_div.
    destruct (convertible_js_gt t 0 Ht) as [b ->]. simpl.
    destruct (convertible_ToNumber _ Hm) as [x ->].
    destruct (convertible_ToNumber _ Ht) as [y ->]. simpl.
    destruct b; [eexists; split; [done | apply convertible_JNum]|].
    destruct (truthy (get c "risk_score"));
      eexists; (split; [done|]); [done | apply convertible_JNum]. }
  simpl. destruct (classify_total rs m Hrs' Hm) as [v ->]. simpl.
  unfold mergeVerdict. destruct (truthy (get c "verdict")); [|by eexists].
  destruct Hvd as [key ->]. by eexists.
Qed.

(** decideVerdict returns on a list of such categories. *)
Lemma decideVerdict_total cats :
  Forall (λ c, c ≠ JNull ∧ c ≠ JUndefined ∧
               (∀ l, get c "results" = JArr l → Forall comparable l) ∧
               convertible (get c "malicious_count") ∧
               convertible (get c "total_engines") ∧
               convertible (get c "risk_score") ∧
               convertible (get c "verdict")) cats →
  is_Some (decideVerdict (JArr cats)).
Proof.
  intros H. unfold decideVerdict. apply fmap_is_Some, mapM_is_Some_2.
  eapply Forall_impl; [exact H|]. simpl.
  intros c (H1 & H2 & H3 & H4 & H5 & H6 & H7). by apply decideCategory_total.
Qed.

(** *** Running the callback on its own output *)

Lemma derivedCounts_ext o o' :
  get (JObj o) "results" = get (JObj o') "results" →
  get (JObj o) "detections" = get (JObj o') "detections" →
  derivedCounts (JObj o) = derivedCounts (JObj o').
Proof.
  intros Hr Hd. unfold derivedCounts, getProp. by rewrite Hr, Hd.
Qed.

Lemma riskScoreOf_defined c m t rs : riskScoreOf c m t = Some rs → rs ≠ JUndefined.
Proof.
  unfold riskScoreOf. intros H. apply bind_Some in H as ([] & _ & H).
  - apply bind_Some in H as (q & _ & [= <-]). done.
  - destruct (truthy (get c "risk_score")) eqn:E; injection H as <-; [|done].
    by apply truthy_not_undefined.
Qed.

(** The score is recomputed to the same value when the category's
    [risk_score] is replaced by the one written to the output. *)
Lemma riskScoreOf_again c c' m t rs :
  riskScoreOf c m t = Some rs →
  get c' "risk_score" = (if is_undefined (get c "risk_score") then rs
                         else get c "risk_score") →
  riskScoreOf c' m t = Some rs.
Proof.
  unfold riskScoreOf. intros H Hc'.
  apply bind_Some in H as (b & Hb & H). rewrite Hb. simpl.
  destruct b; [done|]. rewrite Hc'.
  destruct (get c "risk_score") eqn:E; simpl in *; try done.
  by injection H as <-.
Qed.

Lemma literal_truthy v :
  v = "MALICIOUS" ∨ v = "SUSPICIOUS" ∨ v = "CLEAN" → truthy (JStr v) = true.
Proof. intros [-> | [-> | ->]]; reflexivity. Qed.

Lemma mergeVerdict_computed c v :
  v = "MALICIOUS" ∨ v = "SUSPICIOUS" ∨ v = "CLEAN" →
  get c "verdict" = JStr v → mergeVerdict c v = Some (JStr v).
Proof.
  intros Hv Hc. unfold mergeVerdict. rewrite Hc, (literal_truthy _ Hv). simpl.
  by rewrite rankOrZero_irrefl.
Qed.

Lemma mergeVerdict_again c c' v vd :
  v = "MALICIOUS" ∨ v = "SUSPICIOUS" ∨ v = "CLEAN" →
  mergeVerdict c v = Some vd → get c' "verdict" = vd →
  mergeVerdict c' v = Some vd.
Proof.
  intros Hv H Hc'. unfold mergeVerdict in H.
  destruct (truthy (get c "verdict")) eqn:Ht.
  - apply bind_Some in H as (key & Hkey & [= H]).
    destruct (PrimFloat.ltb (rankOrZero v) (rankOrZero key)) eqn:Hlt; subst vd.
    + unfold mergeVerdict. rewrite Hc', Ht, Hkey. simpl. by rewrite Hlt.
    + by apply mergeVerdict_computed.
  - injection H as <-. by apply mergeVerdict_computed.
Qed.

Lemma explicitOr_defined field derived :
  field ≠ JUndefined → explicitOr field derived = field.
Proof. intros H. unfold explicitOr. apply is_undefined_false in H. by rewrite H. Qed.

Lemma explicit_counts c m t :
  get c "malicious_count" ≠ JUndefined → get c "total_engines" ≠ JUndefined →
  maliciousCountOf c = Some m → totalEnginesOf c = Some t →
  m = get c "malicious_count" ∧ t = get c "total_engines" ∧
  is_Some (derivedCounts c).
Proof.
  unfold maliciousCountOf, totalEnginesOf. intros Hmc Hte Hm Ht.
  apply bind_Some in Hm as (counts & Hcounts & [= Hm]).
  apply bind_Some in Ht as (counts' & _ & [= Ht]).
  rewrite explicitOr_defined in Hm, Ht by done. eauto.
Qed.

Lemma counts_of_explicit c counts :
  derivedCounts c = Some counts →
  get c "malicious_count" ≠ JUndefined → get c "total_engines" ≠ JUndefined →
  maliciousCountOf c = Some (get c "malicious_count") ∧
  totalEnginesOf c = Some (get c "total_engines").
Proof.
  unfold maliciousCountOf, totalEnginesOf. intros -> Hmc Hte. simpl.
  by rewrite !explicitOr_defined.
Qed.

Lemma insert_same (o : gmap string JsVal) k v : get (JObj o) k = v → v ≠ JUndefined →
  <[k := v]> o = o.
Proof.
  unfold get. intros H Hv. apply insert_id.
  destruct (o !! k); simpl in *; congruence.
Qed.

Lemma decideCategory_again c out :
  get c "malicious_count" ≠ JUndefined →
  truthy (get c "total_engines") = true →
  decideCategory c = Some out → decideCategory out = Some out.
Proof.
  intros Hmc Hte Hcat.
  destruct (get_not_undefined_obj _ _ Hmc) as [o ->].
  apply decideCategory_Some in Hcat
    as (m & t & rs & v & vd & Hm & Ht & Hrs & Hv & Hvd & ->).
  pose proof (truthy_not_undefined _ Hte) as Hte'.
  destruct (explicit_counts _ _ _ Hmc Hte' Hm Ht) as (Em & Et & [counts Hcounts]).
  rewrite <- Em in Hmc. rewrite <- Et in Hte, Hte'. clear Em Et.
  rewrite (jor_truthy t) by done.
  set (R := if is_undefined (get (JObj o) "risk_score") then rs
            else get (JObj o) "risk_score").
  change (ownProps (JObj o)) with o.
  set (o1 := <["total_engines" := t]> (<["malicious_count" := m]>
             (<["risk_score" := R]> (<["verdict" := vd]> o)))).
  assert (get (JObj o1) "total_engines" = t) as Gt by apply get_insert_eq.
  assert (get (JObj o1) "malicious_count" = m) as Gm.
  { unfold o1. rewrite get_insert_ne by done. apply get_insert_eq. }
  assert (get (JObj o1) "risk_score" = R) as Gr.
  { unfold o1. do 2 (rewrite get_insert_ne by done). apply get_insert_eq. }
  assert (get (JObj o1) "verdict" = vd) as Gv.
  { unfold o1. do 3 (rewrite get_insert_ne by done). apply get_insert_eq. }
  assert (derivedCounts (JObj o1) = Some counts) as Hcounts1.
  { rewrite <- Hcounts. apply derivedCounts_ext;
      unfold o1; by do 4 (rewrite get_insert_ne by done). }
  assert (R ≠ JUndefined) as HR.
  { unfold R. destruct (is_undefined (get (JObj o) "risk_score")) eqn:E.
    - by eapply riskScoreOf_defined.
    - by apply is_undefined_false. }
  assert (vd ≠ JUndefined) as Hvd'.
  { destruct (mergeVerdict_spec _ _ _ Hvd) as [Hyes Hno].
    destruct (truthy (get (JObj o) "verdict")) eqn:E.
    - destruct (Hyes eq_refl) as (cur & _ & ->).
      destruct (PrimFloat.ltb _ _); [by apply truthy_not_undefined | done].
    - by rewrite Hno. }
  destruct (counts_of_explicit (JObj o1) counts Hcounts1) as [Hm1 Ht1].
  { by rewrite Gm. } { by rewrite Gt. }
  rewrite Gm in Hm1. rewrite Gt in Ht1.
  unfold decideCategory. rewrite Hm1, Ht1. simpl.
  rewrite (riskScoreOf_again (JObj o) (JObj o1) m t rs Hrs Gr). simpl.
  rewrite Hv. simpl.
  rewrite (mergeVerdict_again (JObj o) (JObj o1) v vd (classify_literal _ _ _ Hv) Hvd Gv).
  simpl.
  change (default JUndefined (o1 !! "risk_score")) with (get (JObj o1) "risk_score").
  rewrite Gr. apply is_undefined_false in HR. rewrite HR.
  apply is_undefined_false in HR.
  rewrite (jor_truthy t) by done.
  rewrite (insert_same o1 "verdict" vd Gv Hvd').
  rewrite (insert_same o1 "risk_score" R Gr HR).
  rewrite (insert_same o1 "malicious_count" m Gm Hmc).
  by rewrite (insert_same o1 "total_engines" t Gt Hte').
Qed.

(** C4 (amended): for every category [c] that carries explicit
    [malicious_count] and [total_engines] fields, the latter not zero (nor
    otherwise falsy), decideVerdict on the one-element list [[c]] is
    idempotent: [decideVerdict(decideVerdict([c]))] equals
    [decideVerdict([c])] (and both raise when the first call does). *)
Theorem C4_idempotent c :
  get c "malicious_count" ≠ JUndefined →
  get c "total_engines" ≠ JUndefined →
  truthy (get c "total_engines") = true →
  decideVerdict (JArr [c]) ≫= decideVerdict = decideVerdict (JArr [c]).
Proof.
  intros Hmc _ Hte. rewrite decideVerdict_singleton.
  destruct (decideCategory c) as [out|] eqn:Hcat; [|done].
  change (decideVerdict (JArr [out]) = Some (JArr [out])).
  by rewrite decideVerdict_singleton, (decideCategory_again c out Hmc Hte Hcat).
Qed.

(** When the verdict a category came with is a string, or there is none,
    the output verdict is one of the three literals. *)
Lemma verdict_literal_when_string c out :
  decideCategory c = Some out →
  get c "verdict" = JUndefined ∨ (∃ s, get c "verdict" = JStr s) →
  get out "verdict" = JStr "MALICIOUS" ∨ get out "verdict" = JStr "SUSPICIOUS" ∨
  get out "verdict" = JStr "CLEAN".
Proof.
  intros Hcat Hin.
  apply decideCategory_Some in Hcat
    as (m & t & rs & v & vd & Hm & Ht & Hrs & Hv & Hvd & ->).
  destruct (decided_fields c m t rs vd) as (_ & _ & _ & Hr). rewrite Hr. clear Hr.
  pose proof (classify_literal _ _ _ Hv) as Hlit.
  assert (JStr v = JStr "MALICIOUS" ∨ JStr v = JStr "SUSPICIOUS" ∨ JStr v = JStr "CLEAN")
    as Hlit' by (destruct Hlit as [-> | [-> | ->]]; auto).
  destruct (mergeVerdict_spec _ _ _ Hvd) as [Hyes Hno].
  destruct (truthy (get c "verdict")) eqn:Htr; [|by rewrite Hno].
  destruct (Hyes eq_refl) as (cur & Hcur & ->).
  destruct Hin as [Hu | [s Hs]]; [by rewrite Hu in Htr|].
  rewrite Hs in *. unfold severity in Hcur. simpl in Hcur. injection Hcur as <-.
  destruct (PrimFloat.ltb (rankOrZero v) (rankOrZero s)) eqn:Hlt; [|done].
  destruct (rankOrZero_above _ _ Hlit Hlt) as [-> | ->]; auto.
Qed.

(** ** Properties of normalizeResult *)

Lemma normalizeResult_passthrough r :
  truthy r && typeof_object r = false → normalizeResult r = Some r.
Proof.
  unfold normalizeResult. intros H.
  destruct (truthy r), (typeof_object r); simpl in *; done.
Qed.

Lemma normalizeResult_object r out :
  truthy r && typeof_object r = true → normalizeResult r = Some out →
  ∃ favicon_src screenshot_src,
    srcOf (faviconUrlOf r) (faviconBase64Of r) = Some favicon_src ∧
    srcOf (screenshotUrlOf r) (screenshotBase64Of r) = Some screenshot_src ∧
    out = JObj (<["screenshot_src" := screenshot_src]>
               (<["favicon_src" := favicon_src]>
               (<["favicon_base64" := jor (faviconBase64Of r) JNull]>
               (<["favicon_url" := jor (faviconUrlOf r) JNull]>
               (ownProps r))))).
Proof.
  unfold normalizeResult. intros H.
  apply andb_true_iff in H as [-> ->]. simpl. intros H.
  apply bind_Some in H as (f & Hf & H).
  apply bind_Some in H as (s & Hs & [= <-]). eauto.
Qed.

(** normalizeResult returns whenever the base64 payloads it may print
    have a string form. *)
Lemma normalizeResult_total r :
  convertible (faviconBase64Of r) → convertible (screenshotBase64Of r) →
  is_Some (normalizeResult r).
Proof.
  intros [f Hf] [g Hg]. unfold normalizeResult, srcOf.
  destruct (negb (truthy r) || negb (typeof_object r)); [by eexists|].
  rewrite Hf, Hg.
  destruct (truthy (faviconUrlOf r)), (truthy (faviconBase64Of r)),
    (truthy (screenshotUrlOf r)), (truthy (screenshotBase64Of r)); by eexists.
Qed.

(** C7 (amended): for an object input [r], normalizeResult returns a new
    object in which every field of [r] other than [favicon_url],
    [favicon_base64], [favicon_src] and [screenshot_src] is present with
    its original value; those four are set to the resolved values
    ([favicon_url] keeps the value of [r.favicon_url] when that is truthy);
    a non-object input is returned unchanged. *)
Theorem C7_normalizeResult_frame r out :
  normalizeResult r = Some out →
  (truthy r && typeof_object r = true →
     (∃ o, out = JObj o) ∧
     (∀ k v, ownProps r !! k = Some v → k ∉ canonicalKeys →
             ownProps out !! k = Some v) ∧
     srcOf (faviconUrlOf r) (faviconBase64Of r) = Some (get out "favicon_src") ∧
     srcOf (screenshotUrlOf r) (screenshotBase64Of r) = Some (get out "screenshot_src") ∧
     get out "favicon_url" = jor (faviconUrlOf r) JNull ∧
     get out "favicon_base64" = jor (faviconBase64Of r) JNull ∧
     (truthy (get r "favicon_url") = true →
        get out "favicon_url" = get r "favicon_url")) ∧
  (truthy r && typeof_object r = false → out = r).
Proof.
  intros H. split; intros Hobj.
  - destruct (normalizeResult_object _ _ Hobj H) as (f & s & Hf & Hs & ->).
    assert (get (JObj (<["screenshot_src" := s]> (<["favicon_src" := f]>
              (<["favicon_base64" := jor (faviconBase64Of r) JNull]>
              (<["favicon_url" := jor (faviconUrlOf r) JNull]> (ownProps r))))))
              "favicon_url" = jor (faviconUrlOf r) JNull) as Hurl.
    { do 3 (rewrite get_insert_ne by done). apply get_insert_eq. }
    split; [eauto|]. split; [|split; [|split; [|split; [|split]]]].
    + intros k v Hk Hnot. simpl.
      rewrite !lookup_insert_ne; [done | | | |];
        intros <-; apply Hnot; unfold canonicalKeys;
        repeat first [apply list_elem_of_here | apply list_elem_of_further].
    + by rewrite get_insert_ne, get_insert_eq.
    + by rewrite get_insert_eq.
    + done.
    + do 2 (rewrite get_insert_ne by done). apply get_insert_eq.
    + intros Ht. rewrite Hurl. unfold faviconUrlOf.
      rewrite !(jor_truthy (get r "favicon_url")) by done. done.
  - rewrite normalizeResult_passthrough in H by done. congruence.
Qed.

(** ** Properties of normalizeScanResponse *)

Lemma normalizeScanResponse_array raw cats :
  normalizeScanResponse raw = Some cats → ∃ l, cats = JArr l.
Proof.
  unfold normalizeScanResponse. intros H.
  destruct raw; try (injection H as <-; by eauto).
  - apply fmap_Some in H as (l' & _ & ->). eauto.
  - destruct (get (JObj o) "categories");
      try (apply fmap_Some in H as (l' & _ & ->); by eauto);
      (apply bind_Some in H as ([] & _ & H);
       [ destruct (get (JObj o) "results");
           try (injection H as <-; by eauto);
           apply fmap_Some in H as (l' & _ & ->); by eauto
       | destruct (looksLikeCategory (JObj o));
           [ apply bind_Some in H as (c & _ & [= <-]); by eauto |];
         destruct (looksLikeResult (JObj o));
           [ apply bind_Some in H as (c & _ & [= <-]); by eauto |];
         injection H as <-; by eauto ]).
Qed.

Lemma normalizeScanResponse_wrapped raw :
  wrappedShape raw →
  normalizeScanResponse raw =
    match raw with
    | JObj _ =>
        if looksLikeCategory raw then c ← syntheticCategory raw; Some (JArr [c])
        else if looksLikeResult raw then c ← wrappedResult raw; Some (JArr [c])
        else Some (JArr [])
    | _ => Some (JArr [])
    end.
Proof.
  intros (Ha & Hc & Hr). unfold normalizeScanResponse.
  destruct raw; try done.
  destruct (get (JObj o) "categories"); try done; by rewrite Hr.
Qed.

Lemma syntheticCategory_fields raw cat :
  syntheticCategory raw = Some cat →
  ∃ o, cat = JObj o ∧
  get cat "verdict" = jor (get raw "verdict") (JStr "UNKNOWN") ∧
  get cat "risk_score" = jor (get raw "risk_score") (JNum 0) ∧
  get cat "confidence" = jor (get raw "confidence") (JStr "N/A") ∧
  get cat "malicious_count" = jor (get raw "malicious_count") (JNum 0) ∧
  get cat "total_engines" = jor (get raw "total_engines") (JNum 0) ∧
  get cat "detections" = (match get raw "detections" with
                          | JArr l => JArr l
                          | _ => JArr []
                          end) ∧
  syntheticResults raw = Some (get cat "results") ∧
  get cat "count" = jor (get raw "count")
                        (match get raw "results" with
                         | JArr l => JNum (of_nat (length l))
                         | _ => JNum 1
                         end) ∧
  get cat "_raw" = raw.
Proof.
  unfold syntheticCategory. intros H.
  apply bind_Some in H as (rs & Hrs & [= <-]).
  eexists. split; [done|].
  repeat split;
    repeat (first [ rewrite get_insert_eq; done
                  | rewrite get_insert_ne by done ]).
Qed.

Lemma looksLikeCategory_iff raw :
  looksLikeCategory raw = true ↔
  truthy (get raw "verdict") = true ∨ truthy (get raw "risk_score") = true ∨
  isArray (get raw "results") = true.
Proof.
  unfold looksLikeCategory. rewrite !orb_true_iff.
  split; [intros [[?|?]|?] | intros [?|[?|?]]]; auto.
Qed.

(** C5 (amended): for every object payload [raw] (not a sequence) with no
    [categories] sequence and no results-of-categories shape that has a
    truthy [verdict], a truthy [risk_score] or a [results] sequence,
    [normalize(raw)] is a one-element sequence whose single Category has
    [verdict] from [raw.verdict] else UNKNOWN, [risk_score] from
    [raw.risk_score] else 0, [confidence] else "N/A", [malicious_count] else
    0, [total_engines] else 0, [detections] from [raw.detections] if a
    sequence else empty, [results] the normalised [raw.results] if a
    sequence, else the normalised [raw.items] if a sequence, else empty,
    [count] from [raw.count] else the length of [raw.results] if a sequence
    else 1, and [_raw] the payload itself; it raises only when normalising
    one of the results raises. *)
Theorem C5_synthetic_category o :
  let raw := JObj o in
  isArray (get raw "categories") = false →
  resultsAreCategories raw = Some false →
  truthy (get raw "verdict") = true ∨ truthy (get raw "risk_score") = true ∨
    isArray (get raw "results") = true →
  (is_Some (syntheticResults raw) → is_Some (normalizeScanResponse raw)) ∧
  ∀ out, normalizeScanResponse raw = Some out →
    ∃ cat, out = JArr [cat] ∧
      get cat "verdict" = jor (get raw "verdict") (JStr "UNKNOWN") ∧
      get cat "risk_score" = jor (get raw "risk_score") (JNum 0) ∧
      get cat "confidence" = jor (get raw "confidence") (JStr "N/A") ∧
      get cat "malicious_count" = jor (get raw "malicious_count") (JNum 0) ∧
      get cat "total_engines" = jor (get raw "total_engines") (JNum 0) ∧
      get cat "detections" = (match get raw "detections" with
                              | JArr l => JArr l
                              | _ => JArr []
                              end) ∧
      (match get raw "results", get raw "items" with
       | JArr l, _ => mapNormalizeResult l
       | _, JArr l => mapNormalizeResult l
       | _, _ => Some (JArr [])
       end) = Some (get cat "results") ∧
      get cat "count" = jor (get raw "count")
                            (match get raw "results" with
                             | JArr l => JNum (of_nat (length l))
                             | _ => JNum 1
                             end) ∧
      get cat "_raw" = raw.
Proof.
  intros raw Hc Hr Hlooks. apply looksLikeCategory_iff in Hlooks. subst raw.
  assert (wrappedShape (JObj o)) as Hshape by done.
  rewrite (normalizeScanResponse_wrapped _ Hshape), Hlooks.
  split.
  - intros [rs Hrs]. unfold syntheticCategory. rewrite Hrs. by eexists.
  - intros out H. apply bind_Some in H as (cat & Hcat & [= <-]).
    exists cat. split; [done|].
    destruct (syntheticCategory_fields _ _ Hcat)
      as (o' & -> & Hv & Hs & Hcf & Hm & Ht & Hd & Hres & Hcnt & Hraw).
    do 6 (split; [done|]). split; [|by split].
    rewrite <- Hres. unfold syntheticResults.
    destruct (get (JObj o) "results"); try done;
      by destruct (get (JObj o) "items").
Qed.

(** ** The pipeline: normalizeScanResponse, then decideVerdict *)

Lemma decideVerdict_elem cats outs :
  decideVerdict (JArr cats) = Some outs →
  ∃ l, outs = JArr l ∧
       ∀ out, out ∈ l → ∃ c, c ∈ cats ∧ decideCategory c = Some out.
Proof.
  unfold decideVerdict. intros H.
  apply fmap_Some in H as (l & Hl & ->). exists l. split; [done|].
  apply mapM_Some_1 in Hl. intros out Hout.
  apply list_elem_of_lookup in Hout as [i Hi].
  destruct (Forall2_lookup_r _ _ _ _ _ Hl Hi) as (c & Hc & Hd).
  exists c. split; [|done]. apply list_elem_of_lookup. eauto.
Qed.

Lemma decided_total_engines c out :
  decideCategory c = Some out →
  truthy (get out "total_engines") = true.
Proof.
  intros H. apply decideCategory_Some in H
    as (m & t & rs & v & vd & _ & _ & _ & _ & _ & ->).
  destruct (decided_fields c m t rs vd) as (-> & _). apply truthy_jor_one.
Qed.

(** The callback leaves every field it does not write as it was. *)
Lemma decided_other_fields o out k :
  decideCategory (JObj o) = Some out →
  k ∉ ["verdict"; "risk_score"; "malicious_count"; "total_engines"] →
  get out k = get (JObj o) k.
Proof.
  intros H Hk. apply decideCategory_Some in H
    as (m & t & rs & v & vd & _ & _ & _ & _ & _ & ->).
  rewrite !get_insert_ne; [done | | | |]; intros <-; apply Hk;
    repeat first [apply list_elem_of_here | apply list_elem_of_further].
Qed.

Lemma wrappedResult_fields raw cat :
  wrappedResult raw = Some cat →
  ∃ o, cat = JObj o ∧ get cat "detections" = JArr [].
Proof.
  unfold wrappedResult. intros H. apply bind_Some in H as (r & _ & [= <-]).
  eexists. split; [done|].
  do 3 (rewrite get_insert_ne by done). by rewrite get_insert_eq.
Qed.

Lemma wrapped_categories raw l :
  wrappedShape raw → normalizeScanResponse raw = Some (JArr l) →
  ∀ c, c ∈ l → ∃ o, c = JObj o ∧ isArray (get c "detections") = true.
Proof.
  intros Hshape. rewrite (normalizeScanResponse_wrapped _ Hshape). intros H c Hc.
  assert (l = [] ∨ (∃ o, l = [JObj o] ∧ isArray (get (JObj o) "detections") = true))
    as [-> | (o & -> & Hd)].
  { destruct raw; try (injection H as <-; by left).
    destruct (looksLikeCategory (JObj o)).
    - apply bind_Some in H as (cat & Hcat & [= <-]). right.
      destruct (syntheticCategory_fields _ _ Hcat)
        as (o' & -> & _ & _ & _ & _ & _ & Hd & _).
      exists o'. split; [done|]. rewrite Hd.
      by destruct (get (JObj o) "detections").
    - destruct (looksLikeResult (JObj o)); [|injection H as <-; by left].
      apply bind_Some in H as (cat & Hcat & [= <-]). right.
      destruct (wrappedResult_fields _ _ Hcat) as (o' & -> & Hd).
      exists o'. by rewrite Hd. }
  - by apply elem_of_nil in Hc.
  - apply list_elem_of_singleton in Hc as ->. eauto.
Qed.

(** The three branches that map over supplied categories. *)
Lemma normalizeScanResponse_supplied raw supplied :
  suppliesCategories raw supplied →
  normalizeScanResponse raw = JArr <$> mapM normalizeCategory supplied.
Proof.
  unfold normalizeScanResponse.
  intros [-> | [(Ha & Hc) | (Ha & Hc & Hr & Hs)]]; [done | |].
  - destruct raw; try discriminate. by rewrite Hc.
  - destruct raw; try discriminate.
    destruct (get (JObj o) "categories"); try discriminate; by rewrite Hr, Hs.
Qed.

(** Every payload is of the wrapped shape or supplies its categories,
    unless the guard of line 54 raises. *)
Lemma payload_shapes raw cats :
  normalizeScanResponse raw = Some cats →
  wrappedShape raw ∨ ∃ supplied, suppliesCategories raw supplied.
Proof.
  intros H. destruct raw; try (left; by repeat split).
  { right. exists l. by left. }
  destruct (get (JObj o) "categories") eqn:Hc;
    try (right; eexists; right; left; by split).
  all: unfold normalizeScanResponse in H; rewrite Hc in H;
    apply bind_Some in H as ([] & Hr & _);
    [ right | left; unfold wrappedShape; rewrite Hc; by repeat split ].
  all: unfold resultsAreCategories in Hr;
    destruct (get (JObj o) "results") as [| | | | | [|first rest] |] eqn:Hres;
    try discriminate;
    exists (first :: rest); right; right; rewrite Hc;
    repeat split; try done; unfold resultsAreCategories; by rewrite Hres.
Qed.

(** The callback of lines 46, 51 and 55 leaves every named field other
    than [results] as the category had it. *)
Lemma normalizeCategory_field cat c d rest :
  normalizeCategory cat = Some c →
  ¬ (48 ≤ Ascii.N_of_ascii d ≤ 57)%N → String d rest ≠ "results" →
  ∃ o, c = JObj o ∧ get c (String d rest) = get cat (String d rest).
Proof.
  unfold normalizeCategory. intros H Hd Hne.
  apply bind_Some in H as (rs & _ & H).
  apply bind_Some in H as (rs' & _ & [= <-]).
  eexists. split; [done|].
  rewrite get_insert_ne by done. unfold get at 1. by apply ownProps_name.
Qed.

Lemma decided_total_engines_value c out :
  decideCategory c = Some out →
  ∃ totalEngines,
    totalEnginesOf c = Some totalEngines ∧
    (get c "total_engines" ≠ JUndefined → totalEngines = get c "total_engines") ∧
    get out "total_engines" = (if truthy totalEngines then totalEngines else JNum 1).
Proof.
  intros H. apply decideCategory_Some in H
    as (m & t & rs & v & vd & _ & Ht & _ & _ & _ & ->).
  exists t. split; [done|]. split.
  - intros Hdef. unfold totalEnginesOf in Ht.
    apply bind_Some in Ht as (counts & _ & [= <-]). unfold explicitOr.
    by destruct (get c "total_engines").
  - by destruct (decided_fields c m t rs vd) as (-> & _).
Qed.

(** C6 (amended): every Category in the final output of the pipeline has
    a [total_engines] that is never 0: it is the total the category came
    with or was given on lines 27-39, and 1 when that is zero or otherwise
    falsy.  Its [detections] is a (possibly empty) sequence whenever the
    payload is wrapped into a synthetic category (the payload is not a
    sequence, has no [categories] sequence and no results-of-categories
    shape); every other payload supplies its categories itself, and the
    i-th output category then has the [detections] of the i-th supplied
    category, whatever that is, [undefined] included. *)
Theorem C6_pipeline_output raw cats outs :
  normalizeScanResponse raw = Some cats → decideVerdict cats = Some outs →
  ∃ l0 l, cats = JArr l0 ∧ outs = JArr l ∧ length l = length l0 ∧
    (∀ out, out ∈ l →
       truthy (get out "total_engines") = true ∧
       get out "total_engines" ≠ JNum 0 ∧
       (wrappedShape raw → isArray (get out "detections") = true)) ∧
    (∀ i c out, l0 !! i = Some c → l !! i = Some out →
       ∃ totalEngines,
         totalEnginesOf c = Some totalEngines ∧
         (get c "total_engines" ≠ JUndefined →
            totalEngines = get c "total_engines") ∧
         get out "total_engines"
           = (if truthy totalEngines then totalEngines else JNum 1)) ∧
    (wrappedShape raw ∨ ∃ supplied, suppliesCategories raw supplied) ∧
    (∀ supplied, suppliesCategories raw supplied →
       length l = length supplied ∧
       ∀ i cat out, supplied !! i = Some cat → l !! i = Some out →
         get out "detections" = get cat "detections").
Proof.
  intros Hn Hd.
  destruct (normalizeScanResponse_array _ _ Hn) as [l0 ->].
  destruct (decideVerdict_elem _ _ Hd) as (l & -> & Hl).
  assert (Forall2 (λ c out, decideCategory c = Some out) l0 l) as Hall.
  { unfold decideVerdict in Hd. apply fmap_Some in Hd as (l' & Hl' & [= ->]).
    by apply mapM_Some_1. }
  exists l0, l. do 2 (split; [done|]).
  split; [symmetry; by eapply Forall2_length|].
  split; [|split; [|split; [by eapply payload_shapes|]]].
  - intros out Hout. destruct (Hl out Hout) as (c & Hc & Hcat).
    pose proof (decided_total_engines _ _ Hcat) as Ht.
    split; [done|]. split; [by apply truthy_not_zero|].
    intros Hshape.
    destruct (wrapped_categories _ _ Hshape Hn c Hc) as (o & -> & Hdet).
    rewrite (decided_other_fields o out "detections" Hcat); [done|].
    intros Hin. repeat (apply elem_of_cons in Hin as [Hin | Hin]; [done|]).
    by apply elem_of_nil in Hin.
  - intros i c out Hc Hout.
    destruct (Forall2_lookup_l _ _ _ _ _ Hall Hc) as (out' & Hout' & Hcat).
    assert (out' = out) as -> by congruence.
    by apply decided_total_engines_value.
  - intros supplied Hs.
    rewrite (normalizeScanResponse_supplied _ _ Hs) in Hn.
    apply fmap_Some in Hn as (l0' & Hmap & [= ->]).
    apply mapM_Some_1 in Hmap.
    split.
    { rewrite <- (Forall2_length _ _ _ Hall). symmetry. by eapply Forall2_length. }
    intros i cat out Hcat Hout.
    destruct (Forall2_lookup_l _ _ _ _ _ Hmap Hcat) as (c & Hc & Hnc).
    destruct (Forall2_lookup_l _ _ _ _ _ Hall Hc) as (out' & Hout' & Hdc).
    assert (out' = out) as -> by congruence.
    assert (∃ o, c = JObj o ∧ get c "detections" = get cat "detections")
      as (o & -> & <-).
    { apply (normalizeCategory_field cat c _ _ Hnc); [|done].
      vm_compute. intros [_ H]. by apply H. }
    apply (decided_other_fields o out "detections" Hdc).
    intros Hin. repeat (apply elem_of_cons in Hin as [Hin | Hin]; [done|]).
    by apply elem_of_nil in Hin.
Qed.

(** ** Properties of the WHOIS helpers *)

Lemma orChain_truthy w keys :
  truthy (orChain w keys) = true ↔ ∃ k, k ∈ keys ∧ truthy (get w k) = true.
Proof.
  induction keys as [|k rest IH].
  - simpl. split; [done|]. intros (k & Hk & _). by apply elem_of_nil in Hk.
  - destruct rest as [|k' rest].
    + simpl. split.
      * intros H. exists k. split; [apply list_elem_of_here | done].
      * intros (k0 & Hk0 & H). by apply list_elem_of_singleton in Hk0 as ->.
    + change (orChain w (k :: k' :: rest))
        with (jor (get w k) (orChain w (k' :: rest))).
      unfold jor. destruct (truthy (get w k)) eqn:E.
      * rewrite E. split; [|done]. intros _. exists k.
        split; [apply list_elem_of_here | done].
      * rewrite IH. split.
        -- intros (k0 & Hk0 & H). exists k0. split; [by apply list_elem_of_further | done].
        -- intros (k0 & Hk0 & H). apply elem_of_cons in Hk0 as [-> | Hk0]; [congruence|].
           eauto.
Qed.

Lemma truthy_get_object w k : truthy (get w k) = true → ∃ o, w = JObj o.
Proof. intros H. apply (get_not_undefined_obj w k). by apply truthy_not_undefined. Qed.

Lemma hasWhoisData_iff w :
  hasWhoisData w = true ↔ ∃ k, k ∈ meaningfulKeys ∧ truthy (get w k) = true.
Proof.
  unfold hasWhoisData. split.
  - destruct (negb (truthy w) || negb (typeof_object w)); [done|].
    apply orChain_truthy.
  - intros (k & Hk & H). destruct (truthy_get_object _ _ H) as [o ->].
    change (truthy (orChain (JObj o) meaningfulKeys) = true).
    apply orChain_truthy. eauto.
Qed.

(** C8 (amended): hasWhoisData(w) is true iff at least one of the property
    names [domain_name], [domain], [registrar], [org], [organization],
    [country], [creation_date], [created], [creationDate],
    [expiration_date], [expires], [expirationDate], [name_servers],
    [nameServers] holds a truthy value in [w] (the further aliases that
    field normalisation resolves are not consulted); and parseWhoisData(w)
    returns null exactly when hasWhoisData(w) is false. *)
Theorem C8_whois_gate (now : nat → float) w :
  (hasWhoisData w = true ↔
     ∃ k, k ∈ meaningfulKeys ∧ truthy (get w k) = true) ∧
  (parseWhoisData now w = JNull ↔ hasWhoisData w = false).
Proof.
  split; [apply hasWhoisData_iff|].
  unfold parseWhoisData. destruct (hasWhoisData w); simpl; split; done.
Qed.

Lemma firstOf_cons d rest : firstOf (JArr (d :: rest)) = d.
Proof. done. Qed.

Lemma firstOf_not_array d : isArray d = false → firstOf d = d.
Proof. by destruct d. Qed.

(** C9: for a non-empty date string that the date parser rejects,
    formatWhoisDate returns the string itself, and calculateDomainAge,
    calculateDomainAgeInDays and daysUntilExpiration return null; when
    the date value is a sequence its first element is the one used. *)
Theorem C9_unparseable_date (now : float) (s : string) (rest : list JsVal) :
  s ≠ "" → PrimFloat.is_nan (Date_parse s) = true →
  (formatWhoisDate (JStr s) = JStr s ∧
   calculateDomainAge now (JStr s) = JNull ∧
   calculateDomainAgeInDays now (JStr s) = JNull ∧
   daysUntilExpiration now (JStr s) = JNull) ∧
  (formatWhoisDate (JArr (JStr s :: rest)) = JStr s ∧
   calculateDomainAge now (JArr (JStr s :: rest)) = JNull ∧
   calculateDomainAgeInDays now (JArr (JStr s :: rest)) = JNull ∧
   daysUntilExpiration now (JArr (JStr s :: rest)) = JNull) ∧
  (∀ d, isArray d = false →
     formatWhoisDate (JArr (d :: rest)) = formatWhoisDate d ∧
     calculateDomainAge now (JArr (d :: rest)) = calculateDomainAge now d ∧
     calculateDomainAgeInDays now (JArr (d :: rest)) = calculateDomainAgeInDays now d ∧
     daysUntilExpiration now (JArr (d :: rest)) = daysUntilExpiration now d).
Proof.
  intros Hs Hnan.
  assert (truthy (JStr s) = true) as Ht.
  { simpl. by rewrite bool_decide_eq_false_2. }
  unfold formatWhoisDate, calculateDomainAge, calculateDomainAgeInDays,
    daysUntilExpiration.
  split; [|split].
  - rewrite Ht. simpl firstOf. rewrite Ht. simpl. by rewrite Hnan.
  - rewrite !firstOf_cons, Ht. simpl. by rewrite Hnan.
  - intros d Hd. rewrite !firstOf_cons, !(firstOf_not_array d Hd).
    change (truthy (JArr (d :: rest))) with true. simpl negb at 1.
    cbv iota. by destruct (truthy d).
Qed.

(** ** Further properties of normalizeResult *)

(** Reading [x || rest] again after [x] was replaced by [(x || rest) || null]. *)
Lemma jor_chain_again a rest : jor (jor (jor a rest) JNull) rest = jor a rest.
Proof.
  unfold jor. destruct (truthy a) eqn:Ea; rewrite ?Ea; [done|].
  destruct (truthy rest) eqn:Er; rewrite ?Er; simpl; by rewrite ?Er.
Qed.

(** What the four resolvers read from an object that normalizeResult built. *)
Lemma resolvers_again o fsrc ssrc :
  let r := JObj o in
  let out := JObj (<["screenshot_src" := ssrc]> (<["favicon_src" := fsrc]>
               (<["favicon_base64" := jor (faviconBase64Of r) JNull]>
               (<["favicon_url" := jor (faviconUrlOf r) JNull]> o)))) in
  faviconUrlOf out = faviconUrlOf r ∧ faviconBase64Of out = faviconBase64Of r ∧
  screenshotUrlOf out = screenshotUrlOf r ∧
  screenshotBase64Of out = screenshotBase64Of r.
Proof.
  intros r out.
  assert (∀ k, k ∉ canonicalKeys → get out k = get r k) as Hget.
  { intros k Hk. unfold out.
    rewrite !get_insert_ne; [done | | | |]; intros <-; apply Hk; unfold canonicalKeys;
      repeat first [apply list_elem_of_here | apply list_elem_of_further]. }
  assert (∀ k : string, k ∈ ["favicon"; "faviconUrl"; "favicon_image_url"; "favicons";
            "faviconBase64"; "favicon_data"; "faviconData"; "screenshot";
            "screenshot_base64"; "screenshotBase64"; "screenshot_url"; "screenshotUrl"] →
          get out k = get r k) as Hkeys.
  { intros k Hk. apply Hget. intros Hc. unfold canonicalKeys in Hc.
    repeat (apply elem_of_cons in Hk as [-> | Hk];
      [ repeat (apply elem_of_cons in Hc as [Hc | Hc]; [done|]);
        by apply elem_of_nil in Hc |]).
    by apply elem_of_nil in Hk. }
  assert (get out "favicon_url" = jor (faviconUrlOf r) JNull) as Gu.
  { unfold out. do 3 (rewrite get_insert_ne by done). apply get_insert_eq. }
  assert (get out "favicon_base64" = jor (faviconBase64Of r) JNull) as Gb.
  { unfold out. do 2 (rewrite get_insert_ne by done). apply get_insert_eq. }
  repeat split.
  - unfold faviconUrlOf at 1. rewrite Gu.
    rewrite !Hkeys by (repeat first [apply list_elem_of_here | apply list_elem_of_further]).
    apply jor_chain_again.
  - unfold faviconBase64Of at 1. rewrite Gb.
    rewrite !Hkeys by (repeat first [apply list_elem_of_here | apply list_elem_of_further]).
    apply jor_chain_again.
  - unfold screenshotUrlOf.
    by rewrite !Hkeys by (repeat first [apply list_elem_of_here | apply list_elem_of_further]).
  - unfold screenshotBase64Of.
    by rewrite !Hkeys by (repeat first [apply list_elem_of_here | apply list_elem_of_further]).
Qed.

(** X1: normalizeResult is idempotent on every input that is not an
    array: normalising a normalised result changes nothing. *)
Theorem X1_normalizeResult_idempotent r out :
  isArray r = false →
  normalizeResult r = Some out → normalizeResult out = Some out.
Proof.
  intros Harr H.
  destruct (truthy r && typeof_object r) eqn:Hobj.
  2:{ pose proof (normalizeResult_passthrough r Hobj) as Hp.
      rewrite Hp in H. by injection H as <-. }
  assert (∃ o, r = JObj o) as [o ->].
  { destruct r; simpl in *; try done; try (by rewrite andb_false_r in Hobj); eauto. }
  destruct (normalizeResult_object _ _ Hobj H) as (f & s & Hf & Hs & ->).
  change (ownProps (JObj o)) with o.
  destruct (resolvers_again o f s) as (Hu & Hb & Hsu & Hsb).
  unfold normalizeResult. simpl negb. simpl orb. cbv iota.
  rewrite Hu, Hb, Hsu, Hsb, Hf, Hs. simpl.
  do 2 f_equal.
  set (o1 := <["screenshot_src" := s]> (<["favicon_src" := f]>
             (<["favicon_base64" := jor (faviconBase64Of (JObj o)) JNull]>
             (<["favicon_url" := jor (faviconUrlOf (JObj o)) JNull]> o)))).
  assert (<["favicon_url" := jor (faviconUrlOf (JObj o)) JNull]> o1 = o1) as ->.
  { apply insert_id. unfold o1. by do 3 (rewrite lookup_insert_ne by done);
      rewrite lookup_insert_eq. }
  assert (<["favicon_base64" := jor (faviconBase64Of (JObj o)) JNull]> o1 = o1) as ->.
  { apply insert_id. unfold o1. by do 2 (rewrite lookup_insert_ne by done);
      rewrite lookup_insert_eq. }
  assert (<["favicon_src" := f]> o1 = o1) as ->.
  { apply insert_id. unfold o1. by rewrite lookup_insert_ne by done;
      rewrite lookup_insert_eq. }
  apply insert_id. unfold o1. by rewrite lookup_insert_eq.
Qed.

(** ** Further properties of normalizeScanResponse and decideVerdict *)

Lemma normalizeCategory_frame cat out :
  normalizeCategory cat = Some out →
  (∃ o, out = JObj o) ∧
  (∀ k, k ≠ "results" → ownProps out !! k = ownProps cat !! k) ∧
  (isArray (get cat "results") = false → get out "results" = get cat "results") ∧
  (∀ l, get cat "results" = JArr l →
        ∃ l', get out "results" = JArr l' ∧ mapM normalizeResult l = Some l').
Proof.
  unfold normalizeCategory. intros H.
  apply bind_Some in H as (rs & Hrs & H).
  apply bind_Some in H as (rs' & Hrs' & [= <-]).
  assert (rs = get cat "results") as -> by (destruct cat; simpl in *; congruence).
  split; [eauto|]. split; [|split].
  - intros k Hk. simpl. by rewrite lookup_insert_ne.
  - intros Harr. rewrite get_insert_eq.
    destruct (get cat "results"); simpl in *; congruence.
  - intros l Hl. rewrite get_insert_eq. rewrite Hl in Hrs'.
    unfold mapNormalizeResult in Hrs'. apply fmap_Some in Hrs' as (l' & Hl' & ->). eauto.
Qed.

(** X2: a payload that is itself a sequence of categories is normalised
    category by category: the output has the same length, and its i-th
    category is an object that keeps every field of the i-th input
    category except [results], which is kept as it is when it is not a
    sequence and is otherwise the sequence of its normalised elements. *)
Theorem X2_array_payload_frame l out :
  normalizeScanResponse (JArr l) = Some out →
  ∃ l', out = JArr l' ∧ length l' = length l ∧
    ∀ i cat, l !! i = Some cat →
      ∃ o, l' !! i = Some (JObj o) ∧
        (∀ k, k ≠ "results" → o !! k = ownProps cat !! k) ∧
        (isArray (get cat "results") = false →
           get (JObj o) "results" = get cat "results") ∧
        (∀ rs, get cat "results" = JArr rs →
           ∃ rs', get (JObj o) "results" = JArr rs' ∧
                  mapM normalizeResult rs = Some rs').
Proof.
  unfold normalizeScanResponse. intros H.
  apply fmap_Some in H as (l' & Hl' & ->). exists l'. split; [done|].
  apply mapM_Some_1 in Hl'. split; [symmetry; by eapply Forall2_length|].
  intros i cat Hi.
  destruct (Forall2_lookup_l _ _ _ _ _ Hl' Hi) as (c' & Hc' & Hn).
  destruct (normalizeCategory_frame _ _ Hn) as ([o ->] & Hk & Hna & Harr).
  exists o. by repeat split.
Qed.

(** X3: decideVerdict maps a sequence to a sequence of the same length
    whose i-th category is an object holding every field of the i-th input
    category other than [verdict], [risk_score], [malicious_count] and
    [total_engines] unchanged; an input that is not a sequence is returned
    as it is. *)
Theorem X3_decideVerdict_frame normalized out :
  decideVerdict normalized = Some out →
  match normalized with
  | JArr cats =>
      ∃ outs, out = JArr outs ∧ length outs = length cats ∧
        ∀ i c, cats !! i = Some c →
          ∃ o, outs !! i = Some (JObj o) ∧
            ∀ k, k ∉ ["verdict"; "risk_score"; "malicious_count"; "total_engines"] →
                 o !! k = ownProps c !! k
  | _ => out = normalized
  end.
Proof.
  intros H. destruct normalized; try (by injection H as <-).
  unfold decideVerdict in H. apply fmap_Some in H as (outs & Houts & ->).
  exists outs. split; [done|]. apply mapM_Some_1 in Houts.
  split; [symmetry; by eapply Forall2_length|].
  intros i c Hi.
  destruct (Forall2_lookup_l _ _ _ _ _ Houts Hi) as (o' & Ho' & Hd).
  apply decideCategory_Some in Hd
    as (m & t & rs & v & vd & _ & _ & _ & _ & _ & ->).
  eexists. split; [done|]. intros k Hk.
  rewrite !lookup_insert_ne; [done | | | |]; intros <-; apply Hk;
    repeat first [apply list_elem_of_here | apply list_elem_of_further].
Qed.

Lemma severity_literal v :
  severity (JStr v) = Some (rankOrZero v).
Proof. done. Qed.

(** X4: decideVerdict never lowers a canonical verdict: a category that
    arrives MALICIOUS leaves MALICIOUS, and one that arrives SUSPICIOUS
    leaves SUSPICIOUS or MALICIOUS, whatever its counts and scores say. *)
Theorem X4_never_downgrades cats outs i c out :
  decideVerdict (JArr cats) = Some (JArr outs) →
  cats !! i = Some c → outs !! i = Some out →
  (get c "verdict" = JStr "MALICIOUS" → get out "verdict" = JStr "MALICIOUS") ∧
  (get c "verdict" = JStr "SUSPICIOUS" →
     get out "verdict" = JStr "SUSPICIOUS" ∨ get out "verdict" = JStr "MALICIOUS").
Proof.
  intros Hd Hc Hout.
  destruct (decideVerdict_lookup _ _ _ _ Hd Hc) as (out' & Hout' & Hcat).
  assert (out' = out) as -> by congruence.
  apply decideCategory_Some in Hcat
    as (m & t & rs & v & vd & _ & _ & _ & Hv & Hvd & ->).
  destruct (decided_fields c m t rs vd) as (_ & _ & _ & ->).
  destruct (mergeVerdict_spec _ _ _ Hvd) as [Hyes _].
  pose proof (classify_literal _ _ _ Hv) as Hlit.
  split; intros Hin; rewrite Hin in Hyes;
    destruct (Hyes eq_refl) as (cur & Hcur & ->);
    injection Hcur as <-;
    destruct Hlit as [-> | [-> | ->]]; vm_compute; auto.
Qed.
Lemma derivedCounts_no_results c :
  c ≠ JNull → c ≠ JUndefined → isArray (get c "results") = false →
  derivedCounts c =
    Some (match get c "detections" with
          | JArr ((_ :: _) as detections) =>
              ((0 + of_nat (length detections))%float, Math_max 0 70)
          | _ => (0%float, 0%float)
          end).
Proof.
  intros Hn Hu Hr. unfold derivedCounts.
  assert (getProp c "results" = Some (get c "results")) as -> by (by destruct c).
  simpl. by destruct (get c "results").
Qed.

(** X5: when a category carries no [total_engines], the output
    [total_engines] is 70 if the category has a non-empty [detections]
    sequence and 1 otherwise; when it carries no [malicious_count] and its
    [results] is not a sequence, the output [malicious_count] is the number
    of its detections. *)
Theorem X5_derived_counts cats outs i c out :
  decideVerdict (JArr cats) = Some (JArr outs) →
  cats !! i = Some c → outs !! i = Some out →
  (get c "total_engines" = JUndefined →
     get out "total_engines" = match get c "detections" with
                               | JArr (_ :: _) => JNum 70
                               | _ => JNum 1
                               end) ∧
  (get c "malicious_count" = JUndefined → isArray (get c "results") = false →
     get out "malicious_count" = match get c "detections" with
                                 | JArr ((_ :: _) as detections) =>
                                     JNum (0 + of_nat (length detections))%float
                                 | _ => JNum 0
                                 end).
Proof.
  intros Hd Hc Hout.
  destruct (decideVerdict_lookup _ _ _ _ Hd Hc) as (out' & Hout' & Hcat).
  assert (out' = out) as -> by congruence.
  apply decideCategory_Some in Hcat
    as (m & t & rs & v & vd & Hm & Ht & _ & _ & _ & ->).
  destruct (decided_fields c m t rs vd) as (-> & -> & _).
  unfold maliciousCountOf in Hm. apply bind_Some in Hm as (counts & Hcounts & [= <-]).
  unfold totalEnginesOf in Ht. rewrite Hcounts in Ht. injection Ht as <-.
  split.
  - intros ->. unfold explicitOr. simpl is_undefined. cbv iota.
    unfold derivedCounts in Hcounts.
    apply bind_Some in Hcounts as (results & _ & Hcounts).
    apply bind_Some in Hcounts as (m0 & _ & [= <-]).
    destruct (get c "detections") as [| | | | | [|d ds] |]; reflexivity.
  - intros -> Hres. unfold explicitOr. simpl is_undefined. cbv iota.
    rewrite derivedCounts_no_results in Hcounts; [| by intros -> | by intros -> | done].
    injection Hcounts as <-.
    by destruct (get c "detections") as [| | | | | [|d ds] |].
Qed.

(** Reading the fields of an object built by nested inserts. *)
Ltac get_field :=
  repeat first [ rewrite get_insert_eq | rewrite get_insert_ne by done ].

Lemma wrappedResult_Some raw cat :
  wrappedResult raw = Some cat →
  ∃ r o, normalizeResult raw = Some r ∧ cat = JObj o ∧
    get cat "verdict" = JStr "UNKNOWN" ∧ get cat "risk_score" = JNum 0 ∧
    get cat "confidence" = JStr "N/A" ∧
    get cat "malicious_count" = JNum 0 ∧ get cat "total_engines" = JNum 0 ∧
    get cat "detections" = JArr [] ∧ get cat "results" = JArr [r] ∧
    get cat "count" = JNum 1 ∧ get cat "_raw" = raw.
Proof.
  unfold wrappedResult. intros H. apply bind_Some in H as (r & Hr & [= <-]).
  exists r. eexists. split; [done|]. split; [done|].
  repeat split; by get_field.
Qed.

(** X6: a payload recognised only as a single scan result (an object with
    a truthy [input_url], [domain] or [ip], no [categories] or [results]
    sequence and no truthy [verdict] or [risk_score]) comes out of the
    pipeline as exactly one category whose verdict is CLEAN, with
    [risk_score] 0, [malicious_count] 0, [total_engines] 1, no detections,
    and the normalised payload as its only result; the pipeline raises only
    if normalising the payload does. *)
Theorem X6_bare_result_is_clean o r :
  let raw := JObj o in
  isArray (get raw "categories") = false →
  isArray (get raw "results") = false →
  truthy (get raw "verdict") = false →
  truthy (get raw "risk_score") = false →
  looksLikeResult raw = true →
  normalizeResult raw = Some r →
  ∃ out,
    normalizeScanResponse raw ≫= decideVerdict = Some (JArr [out]) ∧
    get out "verdict" = JStr "CLEAN" ∧
    get out "risk_score" = JNum 0 ∧
    get out "malicious_count" = JNum 0 ∧
    get out "total_engines" = JNum 1 ∧
    get out "detections" = JArr [] ∧
    get out "results" = JArr [r] ∧
    get out "_raw" = raw.
Proof.
  intros raw Hcats Hres Hv Hrs Hlooks Hr. subst raw.
  assert (wrappedShape (JObj o)) as Hshape.
  { repeat split; [done|]. unfold resultsAreCategories.
    by destruct (get (JObj o) "results"). }
  rewrite (normalizeScanResponse_wrapped _ Hshape).
  assert (looksLikeCategory (JObj o) = false) as ->.
  { unfold looksLikeCategory. by rewrite Hv, Hrs, Hres. }
  rewrite Hlooks.
  destruct (wrappedResult (JObj o)) as [cat|] eqn:Hcat.
  2:{ unfold wrappedResult in Hcat. by rewrite Hr in Hcat. }
  destruct (wrappedResult_Some _ _ Hcat)
    as (r' & oc & Hr' & -> & Gv & Grs & Gcf & Gm & Gt & Gd & Gres & Gcnt & Graw).
  assert (r' = r) as -> by congruence.
  change ((c ← Some (JObj oc); Some (JArr [c])) ≫= decideVerdict)
    with (decideVerdict (JArr [JObj oc])).
  rewrite decideVerdict_singleton.
  assert (∃ or, r = JObj or ∧ get r "risk_score" = get (JObj o) "risk_score")
    as (or & -> & Hrrs).
  { assert (truthy (JObj o) && typeof_object (JObj o) = true) as Hobj by done.
    destruct (normalizeResult_object _ _ Hobj Hr) as (f & s & _ & _ & ->).
    eexists. split; [done|]. by get_field. }
  assert (derivedCounts (JObj oc) = Some (0%float, 0%float)) as Hcounts.
  { assert (countStep 0 (JObj or) = Some 0%float) as Hstep.
    { unfold countStep, getProp. rewrite Hrrs. cbn [mbind option_bind].
      by rewrite Hrs. }
    unfold derivedCounts, getProp. rewrite Gres.
    cbn [mbind option_bind forEachCount]. rewrite Hstep.
    cbn [mbind option_bind forEachCount]. by rewrite Gd. }
  assert (decideCategory (JObj oc) =
          Some (JObj (<["total_engines" := JNum 1]>
                     (<["malicious_count" := JNum 0]>
                     (<["risk_score" := JNum 0]>
                     (<["verdict" := JStr "CLEAN"]> oc)))))) as Hdec.
  { assert (maliciousCountOf (JObj oc) = Some (JNum 0)) as E1.
    { unfold maliciousCountOf. rewrite Hcounts. cbn [mbind option_bind].
      by rewrite Gm. }
    assert (totalEnginesOf (JObj oc) = Some (JNum 0)) as E2.
    { unfold totalEnginesOf. rewrite Hcounts. cbn [mbind option_bind].
      by rewrite Gt. }
    assert (riskScoreOf (JObj oc) (JNum 0) (JNum 0) = Some (JNum 0)) as E3.
    { unfold riskScoreOf. rewrite Grs. vm_compute. reflexivity. }
    assert (classify (JNum 0) (JNum 0) = Some "CLEAN") as E4
      by (vm_compute; reflexivity).
    assert (mergeVerdict (JObj oc) "CLEAN" = Some (JStr "CLEAN")) as E5.
    { unfold mergeVerdict. rewrite Gv. vm_compute. reflexivity. }
    assert (jor (JNum 0) (JNum 1) = JNum 1) as E6 by (vm_compute; reflexivity).
    unfold decideCategory. rewrite E1, E2. cbn [mbind option_bind].
    rewrite E3. cbn [mbind option_bind]. rewrite E4. cbn [mbind option_bind].
    rewrite E5. cbn [mbind option_bind]. by rewrite Grs, E6. }
  rewrite Hdec. eexists. split; [done|].
  repeat split; get_field; done.
Qed.
Lemma wrapped_verdict_string raw l :
  wrappedShape raw → normalizeScanResponse raw = Some (JArr l) →
  truthy (get raw "verdict") = false ∨ (∃ s, get raw "verdict" = JStr s) →
  ∀ c, c ∈ l → ∃ s, get c "verdict" = JStr s.
Proof.
  intros Hshape. rewrite (normalizeScanResponse_wrapped _ Hshape). intros H Hv c Hc.
  destruct raw; try (injection H as <-; by apply elem_of_nil in Hc).
  destruct (looksLikeCategory (JObj o)).
  - apply bind_Some in H as (cat & Hcat & [= <-]).
    apply list_elem_of_singleton in Hc as ->.
    destruct (syntheticCategory_fields _ _ Hcat) as (o' & _ & -> & _).
    destruct Hv as [Hf | [s Hs]].
    + unfold jor. rewrite Hf. by eexists.
    + rewrite Hs. unfold jor. destruct (truthy (JStr s)); by eexists.
  - destruct (looksLikeResult (JObj o)).
    + apply bind_Some in H as (cat & Hcat & [= <-]).
      apply list_elem_of_singleton in Hc as ->.
      destruct (wrappedResult_Some _ _ Hcat) as (r & oc & _ & _ & -> & _). by eexists.
    + injection H as <-. by apply elem_of_nil in Hc.
Qed.

(** X7: for a payload that is wrapped into a synthetic category (not a
    sequence, no [categories] sequence, no results-of-categories shape)
    and whose [verdict] is a string or falsy, every category that comes
    out of the pipeline has the verdict CLEAN, SUSPICIOUS or MALICIOUS:
    the placeholder UNKNOWN, like any other string, never survives. *)
Theorem X7_pipeline_verdict_literal raw cats outs :
  isArray raw = false → isArray (get raw "categories") = false →
  resultsAreCategories raw = Some false →
  truthy (get raw "verdict") = false ∨ (∃ s, get raw "verdict" = JStr s) →
  normalizeScanResponse raw = Some cats → decideVerdict cats = Some outs →
  ∃ l, outs = JArr l ∧
    ∀ out, out ∈ l →
      get out "verdict" = JStr "MALICIOUS" ∨ get out "verdict" = JStr "SUSPICIOUS" ∨
      get out "verdict" = JStr "CLEAN".
Proof.
  intros Ha Hc Hr Hv Hn Hd.
  assert (wrappedShape raw) as Hshape by done.
  destruct (normalizeScanResponse_array _ _ Hn) as [l0 ->].
  destruct (decideVerdict_elem _ _ Hd) as (l & -> & Hl).
  exists l. split; [done|]. intros out Hout.
  destruct (Hl out Hout) as (c & Hcin & Hcat).
  destruct (wrapped_verdict_string _ _ Hshape Hn Hv c Hcin) as [s Hs].
  apply (verdict_literal_when_string c out Hcat). right. eauto.
Qed.
(** ** Properties of parseVTResult and isVTMalicious *)

Lemma finiteOrZero_finite v x : finiteOrZero v = Some x → PrimFloat.is_finite x = true.
Proof.
  unfold finiteOrZero. intros H. apply bind_Some in H as (y & _ & [= <-]).
  by destruct (PrimFloat.is_finite y) eqn:E.
Qed.

Lemma finiteOrZero_JNum x :
  PrimFloat.is_finite x = true → finiteOrZero (JNum x) = Some x.
Proof. unfold finiteOrZero. simpl. by intros ->. Qed.

Lemma parseVTResult_Some vtData out :
  parseVTResult vtData = Some out →
  ∃ verdict riskScore confidence maliciousCount totalEngines detections,
    finiteOrZero (get (safeOf vtData) "risk_score") = Some riskScore ∧
    finiteOrZero (get (safeOf vtData) "malicious_count") = Some maliciousCount ∧
    finiteOrZero (get (safeOf vtData) "total_engines") = Some totalEngines ∧
    verdict = (if typeof_string (get (safeOf vtData) "verdict")
               then get (safeOf vtData) "verdict" else JStr "UNKNOWN") ∧
    confidence = (if typeof_string (get (safeOf vtData) "confidence")
                  then get (safeOf vtData) "confidence"
                  else JStr (confidenceOf riskScore)) ∧
    detections = (match get (safeOf vtData) "detections" with
                  | JArr l => JArr l
                  | _ => JArr []
                  end) ∧
    out = obj [ ("verdict", verdict); ("risk_score", JNum riskScore);
                ("confidence", confidence); ("malicious_count", JNum maliciousCount);
                ("total_engines", JNum totalEngines); ("detections", detections);
                ("count", JNum 1) ].
Proof.
  unfold parseVTResult. fold (safeOf vtData). intros H.
  apply bind_Some in H as (rs & Hrs & H).
  apply bind_Some in H as (mc & Hmc & H).
  apply bind_Some in H as (te & Hte & [= <-]).
  by eexists _, rs, _, mc, te, _.
Qed.

Lemma vt_record_fields verdict riskScore confidence maliciousCount totalEngines detections :
  let out := obj [ ("verdict", verdict); ("risk_score", riskScore);
                   ("confidence", confidence); ("malicious_count", maliciousCount);
                   ("total_engines", totalEngines); ("detections", detections);
                   ("count", JNum 1) ] in
  get out "verdict" = verdict ∧ get out "risk_score" = riskScore ∧
  get out "confidence" = confidence ∧ get out "malicious_count" = maliciousCount ∧
  get out "total_engines" = totalEngines ∧ get out "detections" = detections ∧
  get out "count" = JNum 1.
Proof. unfold obj. simpl list_to_map. repeat split; by get_field. Qed.

(** X8: whenever parseVTResult returns, its record has a string
    [verdict], a string [confidence], finite numbers as [risk_score],
    [malicious_count] and [total_engines], a sequence as [detections] and
    [count] 1. *)
Theorem X8_parseVTResult_shape vtData out :
  parseVTResult vtData = Some out →
  typeof_string (get out "verdict") = true ∧
  typeof_string (get out "confidence") = true ∧
  (∃ x, get out "risk_score" = JNum x ∧ PrimFloat.is_finite x = true) ∧
  (∃ x, get out "malicious_count" = JNum x ∧ PrimFloat.is_finite x = true) ∧
  (∃ x, get out "total_engines" = JNum x ∧ PrimFloat.is_finite x = true) ∧
  isArray (get out "detections") = true ∧
  get out "count" = JNum 1.
Proof.
  intros H. apply parseVTResult_Some in H
    as (v & rs & cf & mc & te & d & Hrs & Hmc & Hte & -> & -> & -> & ->).
  destruct (vt_record_fields
    (if typeof_string (get (safeOf vtData) "verdict")
     then get (safeOf vtData) "verdict" else JStr "UNKNOWN") (JNum rs)
    (if typeof_string (get (safeOf vtData) "confidence")
     then get (safeOf vtData) "confidence" else JStr (confidenceOf rs))
    (JNum mc) (JNum te)
    (match get (safeOf vtData) "detections" with JArr l => JArr l | _ => JArr [] end))
    as (-> & -> & -> & -> & -> & -> & ->).
  split; [by destruct (typeof_string (get (safeOf vtData) "verdict")) eqn:E|].
  split; [by destruct (typeof_string (get (safeOf vtData) "confidence")) eqn:E|].
  split; [eauto using finiteOrZero_finite|].
  split; [eauto using finiteOrZero_finite|].
  split; [eauto using finiteOrZero_finite|].
  split; [|done]. by destruct (get (safeOf vtData) "detections").
Qed.

Lemma vt_record_reparse verdict riskScore confidence maliciousCount totalEngines detections :
  typeof_string verdict = true → typeof_string confidence = true →
  PrimFloat.is_finite riskScore = true → PrimFloat.is_finite maliciousCount = true →
  PrimFloat.is_finite totalEngines = true → isArray detections = true →
  let out := obj [ ("verdict", verdict); ("risk_score", JNum riskScore);
                   ("confidence", confidence); ("malicious_count", JNum maliciousCount);
                   ("total_engines", JNum totalEngines); ("detections", detections);
                   ("count", JNum 1) ] in
  parseVTResult out = Some out.
Proof.
  intros Hv Hc Hrs Hmc Hte Hd out.
  destruct (vt_record_fields verdict (JNum riskScore) confidence (JNum maliciousCount)
              (JNum totalEngines) detections) as (Gv & Grs & Gc & Gmc & Gte & Gd & _).
  fold out in Gv, Grs, Gc, Gmc, Gte, Gd.
  unfold parseVTResult.
  assert (truthy out && typeof_object out = true) as -> by done.
  rewrite Gv, Grs, Gc, Gmc, Gte, Gd, Hv, Hc.
  rewrite !finiteOrZero_JNum by done. cbn [mbind option_bind].
  by destruct detections.
Qed.

(** X9: parseVTResult is idempotent: parsing a parsed record gives the
    same record. *)
Theorem X9_parseVTResult_idempotent vtData out :
  parseVTResult vtData = Some out → parseVTResult out = Some out.
Proof.
  intros H. apply parseVTResult_Some in H
    as (v & rs & cf & mc & te & d & Hrs & Hmc & Hte & -> & -> & -> & ->).
  apply vt_record_reparse; eauto using finiteOrZero_finite.
  - by destruct (typeof_string (get (safeOf vtData) "verdict")) eqn:E.
  - by destruct (typeof_string (get (safeOf vtData) "confidence")) eqn:E.
  - by destruct (get (safeOf vtData) "detections").
Qed.

Lemma parseVTResult_non_object vtData :
  truthy vtData && typeof_object vtData = false →
  parseVTResult vtData =
    Some (obj [ ("verdict", JStr "UNKNOWN"); ("risk_score", JNum 0);
                ("confidence", JStr "Low"); ("malicious_count", JNum 0);
                ("total_engines", JNum 0); ("detections", JArr []);
                ("count", JNum 1) ]).
Proof.
  intros H. unfold parseVTResult. rewrite H. vm_compute. reflexivity.
Qed.

(** X10: parseVTResult returns the all-default record (verdict UNKNOWN,
    scores and counts 0, confidence Low, no detections, count 1) for every
    input that is not an object: [null], [undefined], numbers, strings and
    booleans. *)
Theorem X10_parseVTResult_defaults vtData :
  truthy vtData && typeof_object vtData = false →
  ∃ out, parseVTResult vtData = Some out ∧
    get out "verdict" = JStr "UNKNOWN" ∧ get out "risk_score" = JNum 0 ∧
    get out "confidence" = JStr "Low" ∧ get out "malicious_count" = JNum 0 ∧
    get out "total_engines" = JNum 0 ∧ get out "detections" = JArr [] ∧
    get out "count" = JNum 1.
Proof.
  intros H. eexists. split; [by apply parseVTResult_non_object|].
  apply vt_record_fields.
Qed.

(** parseVTResult returns whenever the three numeric fields have a
    string form. *)
Lemma parseVTResult_total vtData :
  convertible (get (safeOf vtData) "risk_score") →
  convertible (get (safeOf vtData) "malicious_count") →
  convertible (get (safeOf vtData) "total_engines") →
  is_Some (parseVTResult vtData).
Proof.
  intros H1 H2 H3. unfold parseVTResult, finiteOrZero. fold (safeOf vtData).
  destruct (convertible_ToNumber _ H1) as [x ->].
  destruct (convertible_ToNumber _ H2) as [y ->].
  destruct (convertible_ToNumber _ H3) as [z ->]. by eexists.
Qed.

(** X11: isVTMalicious gives the same answer on the parsed record as on
    the raw sub-verdict, provided the raw [malicious_count] converts to a
    finite number or to one that is not greater than 0 (to anything but
    +Infinity). *)
Theorem X11_isVTMalicious_parsed vtData out :
  parseVTResult vtData = Some out →
  (∀ x, ToNumber (get vtData "malicious_count") = Some x →
        PrimFloat.is_finite x = true ∨ PrimFloat.ltb 0 x = false) →
  isVTMalicious out = isVTMalicious vtData.
Proof.
  intros H Hfin.
  destruct (truthy vtData && typeof_object vtData) eqn:Hobj.
  2:{ rewrite (parseVTResult_non_object vtData Hobj) in H. injection H as <-.
      transitivity (Some false); [vm_compute; reflexivity|].
      unfold isVTMalicious. destruct (truthy vtData) eqn:Ht; [|done].
      destruct vtData; simpl in *; try done; vm_compute; reflexivity. }
  apply parseVTResult_Some in H
    as (v & rs & cf & mc & te & d & Hrs & Hmc & Hte & -> & -> & -> & ->).
  assert (safeOf vtData = vtData) as Hsafe by (unfold safeOf; by rewrite Hobj).
  rewrite Hsafe in *.
  destruct (vt_record_fields
    (if typeof_string (get vtData "verdict") then get vtData "verdict" else JStr "UNKNOWN")
    (JNum rs)
    (if typeof_string (get vtData "confidence") then get vtData "confidence"
     else JStr (confidenceOf rs))
    (JNum mc) (JNum te)
    (match get vtData "detections" with JArr l => JArr l | _ => JArr [] end))
    as (Gv & _ & _ & Gmc & _).
  apply andb_true_iff in Hobj as [Ht _].
  unfold isVTMalicious. rewrite Gv, Gmc, Ht.
  assert (truthy (obj [ ("verdict",
      if typeof_string (get vtData "verdict") then get vtData "verdict" else JStr "UNKNOWN");
      ("risk_score", JNum rs);
      ("confidence", if typeof_string (get vtData "confidence")
                     then get vtData "confidence" else JStr (confidenceOf rs));
      ("malicious_count", JNum mc); ("total_engines", JNum te);
      ("detections", match get vtData "detections" with JArr l => JArr l | _ => JArr [] end);
      ("count", JNum 1) ]) = true) as -> by done.
  cbn [negb].
  assert (strictEqualsString
            (if typeof_string (get vtData "verdict")
             then get vtData "verdict" else JStr "UNKNOWN") "MALICIOUS"
          = strictEqualsString (get vtData "verdict") "MALICIOUS") as ->.
  { by destruct (get vtData "verdict"). }
  destruct (strictEqualsString (get vtData "verdict") "MALICIOUS"); [done|].
  unfold finiteOrZero in Hmc. apply bind_Some in Hmc as (x & Hx & [= <-]).
  rewrite Hx. cbn [ToNumber mbind option_bind]. f_equal.
  destruct (Hfin x Hx) as [-> | Hle]; [done|].
  destruct (PrimFloat.is_finite x); [done|]. by rewrite Hle.
Qed.

(** ** Further properties of the WHOIS helpers *)

Lemma orChain_cons w k k' rest :
  orChain w (k :: k' :: rest) = jor (get w k) (orChain w (k' :: rest)).
Proof. done. Qed.

Lemma orChain_first w pre k post :
  (∀ k', k' ∈ pre → truthy (get w k') = false) → truthy (get w k) = true →
  orChain w (pre ++ k :: post) = get w k.
Proof.
  induction pre as [|p pre IH]; intros Hpre Hk.
  - destruct post as [|k' post]; [done|]. rewrite app_nil_l, orChain_cons.
    by apply jor_truthy.
  - assert (truthy (get w p) = false) as Hp by (apply Hpre, list_elem_of_here).
    assert (orChain w (pre ++ k :: post) = get w k) as IH'.
    { apply IH; [|done]. intros k' Hk'. by apply Hpre, list_elem_of_further. }
    destruct (pre ++ k :: post)%list as [|q qs] eqn:E; [by destruct pre|].
    change (orChain w (p :: (pre ++ k :: post)) = get w k).
    rewrite E, orChain_cons. unfold jor. by rewrite Hp.
Qed.

Lemma orChain_all_falsy w keys :
  (∀ k, k ∈ keys → truthy (get w k) = false) → truthy (orChain w keys) = false.
Proof.
  intros H. destruct (truthy (orChain w keys)) eqn:E; [|done].
  apply orChain_truthy in E as (k & Hk & Ht). rewrite (H k Hk) in Ht. done.
Qed.

Lemma whoisAliases_NoDup : NoDup (whoisAliases.*1).
Proof. apply (bool_decide_unpack _). vm_compute. exact I. Qed.

Lemma normalizeWhoisFields_get whois canon aliases :
  truthy whois = true → (canon, aliases) ∈ whoisAliases →
  get (normalizeWhoisFields whois) canon = orChain whois aliases.
Proof.
  intros Ht Hin. unfold normalizeWhoisFields. rewrite Ht. simpl negb. cbv iota.
  unfold get.
  erewrite (elem_of_list_to_map_1 _ canon (orChain whois aliases)); [done| |].
  - rewrite <- list_fmap_compose.
    replace (fst ∘ (λ p : string * list string, (p.1, orChain whois p.2)))
      with (fst : string * list string → string) by done.
    apply whoisAliases_NoDup.
  - apply list_elem_of_fmap. by exists (canon, aliases).
Qed.

(** X12: field normalisation resolves each canonical WHOIS field to the
    first alias, in table order, that holds a truthy value; when no alias
    does, the resolved value is falsy. *)
Theorem X12_alias_priority whois canon aliases :
  truthy whois = true → (canon, aliases) ∈ whoisAliases →
  (∀ (pre : list string) (k : string) (post : list string),
     aliases = (pre ++ k :: post)%list →
     (∀ k', k' ∈ pre → truthy (get whois k') = false) →
     truthy (get whois k) = true →
     get (normalizeWhoisFields whois) canon = get whois k) ∧
  ((∀ k, k ∈ aliases → truthy (get whois k) = false) →
     truthy (get (normalizeWhoisFields whois) canon) = false).
Proof.
  intros Ht Hin. rewrite (normalizeWhoisFields_get _ _ _ Ht Hin). split.
  - intros pre k post -> Hpre Hk. by apply orChain_first.
  - apply orChain_all_falsy.
Qed.

Lemma nonEmptyStrings_spec l :
  Forall (λ x, ∃ s, x = JStr s ∧ s ≠ "") (nonEmptyStrings l).
Proof.
  unfold nonEmptyStrings. apply Forall_forall. intros x Hx.
  apply list_elem_of_filter in Hx as [Hx _].
  destruct x; simpl in Hx; try done; try (by rewrite andb_false_r in Hx).
  exists s. split; [done|]. intros ->. done.
Qed.

Lemma nonEmptyStrings_fixed l :
  Forall (λ x, ∃ s, x = JStr s ∧ s ≠ "") l → nonEmptyStrings l = l.
Proof.
  unfold nonEmptyStrings. induction 1 as [|x l (s & -> & Hs) _ IH]; [done|].
  rewrite filter_cons_True, IH; [done|].
  simpl. by rewrite bool_decide_eq_false_2.
Qed.

(** X13: formatNameServers always returns a sequence of non-empty
    strings, and formatting its own result changes nothing.  A lone
    non-empty string becomes the one-element sequence of that string; a
    sequence is filtered, keeping in order exactly its elements that are
    non-empty strings (all of it when it holds nothing else); a falsy
    input and an input that is neither a string nor a sequence give the
    empty sequence. *)
Theorem X13_formatNameServers nameServers :
  ∃ l, formatNameServers nameServers = JArr l ∧
       Forall (λ x, ∃ s, x = JStr s ∧ s ≠ "") l ∧
       formatNameServers (JArr l) = JArr l ∧
       (∀ s, nameServers = JStr s → s ≠ "" → l = [JStr s]) ∧
       (∀ input, nameServers = JArr input →
          l = filter (λ x, truthy x && typeof_string x = true) input ∧
          l `sublist_of` input ∧
          (∀ x, x ∈ l ↔ x ∈ input ∧ ∃ s, x = JStr s ∧ s ≠ "") ∧
          (Forall (λ x, ∃ s, x = JStr s ∧ s ≠ "") input → l = input)) ∧
       (truthy nameServers = false → l = []) ∧
       (typeof_string nameServers = false → isArray nameServers = false → l = []).
Proof.
  assert (∀ l, Forall (λ x, ∃ s, x = JStr s ∧ s ≠ "") l →
               formatNameServers (JArr l) = JArr l) as Hfix.
  { intros l Hl. unfold formatNameServers. simpl. by rewrite nonEmptyStrings_fixed. }
  unfold formatNameServers.
  destruct (truthy nameServers) eqn:Ht; simpl negb; cbv iota.
  2:{ exists []. split; [done|]. split; [constructor|]. split; [by apply Hfix|].
      split; [|split; [|done]].
      - intros s -> Hs. simpl in Ht. by rewrite bool_decide_eq_false_2 in Ht.
      - by intros input ->. }
  destruct nameServers;
    try (exists []; split; [done|]; split; [constructor|];
         split; [by apply Hfix|]; by repeat split).
  - assert (Forall (λ x, ∃ s0, x = JStr s0 ∧ s0 ≠ "") [JStr s]) as Hs.
    { constructor; [|constructor]. exists s. split; [done|]. by intros ->. }
    exists [JStr s]. split; [done|]. split; [done|]. split; [by apply Hfix|].
    split; [by intros s' [= ->]|]. by repeat split.
  - exists (nonEmptyStrings l). split; [done|].
    split; [apply nonEmptyStrings_spec|].
    split; [apply Hfix, nonEmptyStrings_spec|].
    split; [done|]. split; [|by repeat split].
    intros input [= <-]. split; [done|].
    split; [apply sublist_filter|]. split; [|apply nonEmptyStrings_fixed].
    intros x. unfold nonEmptyStrings. rewrite list_elem_of_filter.
    split; intros [H1 H2].
    + split; [done|].
      destruct x; simpl in H1; try done; try (by rewrite andb_false_r in H1).
      exists s. split; [done|]. by intros ->.
    + split; [|done].
      destruct H2 as (s & -> & Hs). simpl. by rewrite bool_decide_eq_false_2.
Qed.

(** A number below zero is not at least zero. *)
Lemma ltb_zero_not_leb x : PrimFloat.ltb x 0 = true → PrimFloat.leb 0 x = false.
Proof.
  rewrite ltb_spec, leb_spec.
  replace (Prim2SF 0) with (S754_zero false) by (vm_compute; reflexivity).
  destruct (Prim2SF x) as [s | s | | s m e]; simpl; try done; by destruct s.
Qed.

Lemma daysUntilExpiration_cases now d :
  daysUntilExpiration now d = JNull ∨ ∃ days, daysUntilExpiration now d = JNum days.
Proof.
  unfold daysUntilExpiration.
  destruct (negb (truthy d)); [by left|].
  destruct (negb (truthy (firstOf d))); [by left|].
  destruct (Date_new (firstOf d)) as [t|]; [|by left].
  destruct (PrimFloat.is_nan t); [by left | right; eauto].
Qed.

(** X14: at one clock reading a domain is never both expired and
    expiring soon, and it is neither when daysUntilExpiration has no
    answer (no date, or one that cannot be parsed). *)
Theorem X14_expiry_flags_exclusive now expirationDate :
  (isDomainExpired now expirationDate = true →
     isDomainExpiringSoon now expirationDate = false) ∧
  (daysUntilExpiration now expirationDate = JNull →
     isDomainExpired now expirationDate = false ∧
     isDomainExpiringSoon now expirationDate = false).
Proof.
  unfold isDomainExpired, isDomainExpiringSoon.
  destruct (daysUntilExpiration_cases now expirationDate) as [-> | [days ->]].
  - by split.
  - split; [|done]. intros H. by rewrite (ltb_zero_not_leb _ H).
Qed.

Lemma calculateDomainAge_cases now d :
  calculateDomainAge now d = JNull ∨ ∃ age, calculateDomainAge now d = JNum age.
Proof.
  unfold calculateDomainAge.
  destruct (negb (truthy d)); [by left|].
  destruct (negb (truthy (firstOf d))); [by left|].
  destruct (Date_new (firstOf d)) as [t|]; [|by left].
  destruct (PrimFloat.is_nan t); [by left | right; eauto].
Qed.

(** X15: getDomainAgeRisk applied to the age that calculateDomainAge
    computes never raises; its level is unknown exactly when there is no
    age (the creation date is missing or cannot be parsed), and otherwise
    one of high, medium, low and minimal. *)
Theorem X15_age_risk_of_age now creationDate :
  ∃ bucket,
    getDomainAgeRisk (calculateDomainAge now creationDate) = Some bucket ∧
    (get bucket "level" = JStr "unknown" ↔
       calculateDomainAge now creationDate = JNull) ∧
    (get bucket "level" = JStr "unknown" ∨ get bucket "level" = JStr "high" ∨
     get bucket "level" = JStr "medium" ∨ get bucket "level" = JStr "low" ∨
     get bucket "level" = JStr "minimal").
Proof.
  destruct (calculateDomainAge_cases now creationDate) as [-> | [age ->]].
  - eexists. split; [done|]. split; [by split|]. by left.
  - unfold getDomainAgeRisk, js_lt. cbn [ToNumber mbind option_bind].
    destruct (PrimFloat.ltb age 0.5);
      [eexists; split; [done|]; split; [by split|]; auto|].
    destruct (PrimFloat.ltb age 1);
      [eexists; split; [done|]; split; [by split|]; auto|].
    destruct (PrimFloat.ltb age 3);
      eexists; (split; [done|]); (split; [by split|]); auto 10.
Qed.

(** X16: the registrant of a parsed WHOIS record is read through the
    alias table: its [organization] is the first truthy of [org],
    [organization], [registrant_organization], [registrant_org]; its
    [name] of [registrant_name], [registrant]; its [email] of
    [registrant_email], [email]; its [country], [state] and [city] of the
    field and its [registrant_] form; each is [null] when none is truthy. *)
Theorem X16_registrant_through_aliases whois :
  truthy whois = true →
  let registrant := getRegistrantInfo (normalizeWhoisFields whois) in
  get registrant "organization"
    = jor (orChain whois ["org"; "organization"; "registrant_organization";
                          "registrant_org"]) JNull ∧
  get registrant "name" = jor (orChain whois ["registrant_name"; "registrant"]) JNull ∧
  get registrant "email" = jor (orChain whois ["registrant_email"; "email"]) JNull ∧
  get registrant "country" = jor (orChain whois ["country"; "registrant_country"]) JNull ∧
  get registrant "state" = jor (orChain whois ["state"; "registrant_state"]) JNull ∧
  get registrant "city" = jor (orChain whois ["city"; "registrant_city"]) JNull.
Proof.
  intros Ht registrant. unfold registrant, normalizeWhoisFields. rewrite Ht.
  repeat split; vm_compute; reflexivity.
Qed.
(** ** Properties of the scan history *)

(** X17: after clearHistory, loadHistory returns the empty history,
    whatever the store held and whether or not it can be accessed;
    clearHistory reports failure exactly when access is denied. *)
Theorem X17_clear_then_load browser st :
  loadHistory browser (clearHistory st).2 = [] ∧
  ((clearHistory st).1 = false ↔ st = Denied).
Proof. destruct st; simpl; split; try done; split; done. Qed.

(** X18: saveHistory returns false exactly when the history is not a
    sequence, storage cannot be accessed, or the store refuses the text,
    and then leaves the store exactly as it was; in every other case it
    returns true and leaves in the store the text of the first
    MAX_HISTORY_ITEMS = 10 items of the history: never more than 10 items
    are stored, and the stored ones are a prefix of the history (all of it
    when it has at most 10 items). *)
Theorem X18_saveHistory_bounded browser history st :
  ((saveHistory browser history st).1 = false ↔
     isArray history = false ∨ st = Denied ∨
     ∃ l, history = JArr l ∧
          quotaExceeded browser (JSON_stringify browser (JArr (take 10 l))) = true) ∧
  ((saveHistory browser history st).1 = false →
     (saveHistory browser history st).2 = st) ∧
  ((saveHistory browser history st).1 = true →
   ∃ l stored,
     history = JArr l ∧ stored = take 10 l ∧
     stored `prefix_of` l ∧ (length stored ≤ 10)%nat ∧
     ((length l ≤ 10)%nat → stored = l) ∧
     (saveHistory browser history st).2
       = Holding (Some (JSON_stringify browser (JArr stored)))).
Proof.
  unfold saveHistory, MAX_HISTORY_ITEMS.
  destruct history;
    try (split; [split; [by left | done] | split; [done | discriminate]]).
  destruct st as [|item].
  { split; [split; [by (right; left) | done] | split; [done | discriminate]]. }
  destruct (quotaExceeded browser _) eqn:Hq; simpl.
  - split; [|split; [done | discriminate]].
    split; [|done]. intros _. right. right. by exists l.
  - split; [|split; [discriminate|]].
    + split; [discriminate|].
      intros [H | [H | (l' & [= <-] & H)]]; [done | done | congruence].
    + intros _. exists l, (take 10 l). do 2 (split; [done|]).
      split; [apply prefix_take|].
      split; [rewrite length_take; lia|].
      split; [|done]. intros Hl. by apply take_ge.
Qed.

(** X19: addToHistory returns the new item followed by the whole loaded
    history, untrimmed (one item longer than what was loaded, so 11 items
    when 10 were stored), whether or not the store can be written; the
    new item records the url, the time and the result; the store is left as
    it was or holds the text of the first 10 items of the returned list. *)
Theorem X19_addToHistory browser when url result st :
  ∃ item,
    (addToHistory browser when url result st).1 = item :: loadHistory browser st ∧
    length (addToHistory browser when url result st).1
      = S (length (loadHistory browser st)) ∧
    get item "url" = url ∧ get item "when" = JStr when ∧ get item "result" = result ∧
    ((addToHistory browser when url result st).2 = st ∨
     (addToHistory browser when url result st).2
       = Holding (Some (JSON_stringify browser
           (JArr (take 10 (item :: loadHistory browser st)))))).
Proof.
  unfold addToHistory. cbn [fst snd]. eexists. split; [done|]. split; [done|].
  split; [by unfold obj; simpl list_to_map; get_field|].
  split; [by unfold obj; simpl list_to_map; get_field|].
  split; [by unfold obj; simpl list_to_map; get_field|].
  unfold saveHistory. destruct st; [by left|].
  destruct (quotaExceeded browser _); [by left | by right].
Qed.

(** X20: removeHistoryItem with an index outside the loaded history
    (negative, or at least its length) returns the loaded history and does
    not touch the store; with an index inside it returns the history
    without that one item (one shorter, the items before it in place, the
    later ones moved up by one). *)
Theorem X20_removeHistoryItem browser (index : Z) st :
  let history := loadHistory browser st in
  ((index < 0 ∨ Z.of_nat (length history) ≤ index)%Z →
     removeHistoryItem browser index st = (history, st)) ∧
  ((0 ≤ index < Z.of_nat (length history))%Z →
     let removed := (removeHistoryItem browser index st).1 in
     S (length removed) = length history ∧
     (∀ j, (j < Z.to_nat index)%nat → removed !! j = history !! j) ∧
     (∀ j, (Z.to_nat index ≤ j)%nat → removed !! j = history !! S j)).
Proof.
  intros history. unfold removeHistoryItem. fold history. split.
  - intros Hout.
    assert ((0 <=? index)%Z && (index <? Z.of_nat (length history))%Z = false) as ->;
      [|done].
    apply andb_false_iff. rewrite Z.leb_gt, Z.ltb_ge. lia.
  - intros Hin.
    assert ((0 <=? index)%Z && (index <? Z.of_nat (length history))%Z = true) as ->.
    { apply andb_true_iff. rewrite Z.leb_le, Z.ltb_lt. lia. }
    cbn [fst]. split; [|split].
    + rewrite length_delete; [lia|].
      apply lookup_lt_is_Some. lia.
    + intros j Hj. by apply list_lookup_delete_lt.
    + intros j Hj. by apply list_lookup_delete_ge.
Qed.

(** X21: when the store accepts the text and JSON.parse reads back what
    JSON.stringify wrote, loadHistory after addToHistory returns the first
    10 items of the list addToHistory returned: the new item first, and
    never more than 10 items. *)
Theorem X21_add_then_load browser when url result st :
  let updated := (addToHistory browser when url result st).1 in
  let text := JSON_stringify browser (JArr (take 10 updated)) in
  st ≠ Denied → quotaExceeded browser text = false → text ≠ "" →
  JSON_parse browser text = Some (JArr (take 10 updated)) →
  loadHistory browser (addToHistory browser when url result st).2 = take 10 updated ∧
  (length (loadHistory browser (addToHistory browser when url result st).2) ≤ 10)%nat ∧
  (loadHistory browser (addToHistory browser when url result st).2) !! 0
    = updated !! 0.
Proof.
  intros updated text Hst Hq Htext Hparse.
  assert ((addToHistory browser when url result st).2 = Holding (Some text)) as ->.
  { unfold addToHistory. cbn [snd]. unfold saveHistory.
    destruct st; [done|].
    by destruct (quotaExceeded browser _) eqn:E. }
  unfold loadHistory. rewrite bool_decide_eq_false_2 by done. rewrite Hparse.
  split; [done|]. split; [rewrite length_take; lia|].
  by rewrite lookup_take_lt by lia.
Qed.
(** ** When the pipeline returns and when it raises *)

(** X22: decideVerdict returns (raises no TypeError) on every sequence of
    categories none of which is [null] or [undefined], whose [results],
    when a sequence, hold only values whose [risk_score] can be read and
    has a string form, and whose [malicious_count], [total_engines],
    [risk_score] and [verdict] have a string form (no object among them
    shadows [toString]). *)
Theorem X22_decideVerdict_returns cats :
  Forall (λ c, c ≠ JNull ∧ c ≠ JUndefined ∧
               (∀ l, get c "results" = JArr l → Forall comparable l) ∧
               convertible (get c "malicious_count") ∧
               convertible (get c "total_engines") ∧
               convertible (get c "risk_score") ∧
               convertible (get c "verdict")) cats →
  ∃ outs, decideVerdict (JArr cats) = Some (JArr outs) ∧ length outs = length cats.
Proof.
  intros H.
  assert (is_Some (mapM decideCategory cats)) as [outs Houts].
  { apply mapM_is_Some_2. eapply Forall_impl; [exact H|]. simpl.
    intros c (H1 & H2 & H3 & H4 & H5 & H6 & H7). by apply decideCategory_total. }
  exists outs. unfold decideVerdict. rewrite Houts. split; [done|].
  apply mapM_Some_1 in Houts. symmetry. by eapply Forall2_length.
Qed.

Lemma forEachCount_nullish l r :
  r ∈ l → r = JNull ∨ r = JUndefined →
  ∀ maliciousCount, forEachCount maliciousCount l = None.
Proof.
  intros Hin Hr. induction l as [|x l IH]; intros m.
  - by apply elem_of_nil in Hin.
  - simpl. destruct (countStep m x) as [m'|] eqn:E; [|done]. simpl.
    apply elem_of_cons in Hin as [<- | Hin]; [|by apply IH].
    unfold countStep in E. by destruct Hr as [-> | ->].
Qed.

Lemma decideCategory_nullish c :
  (c = JNull ∨ c = JUndefined ∨
   ∃ l r, get c "results" = JArr l ∧ r ∈ l ∧ (r = JNull ∨ r = JUndefined)) →
  decideCategory c = None.
Proof.
  intros [-> | [-> | (l & r & Hl & Hin & Hr)]]; try done.
  unfold decideCategory, maliciousCountOf, derivedCounts.
  assert (getProp c "results" = Some (JArr l)) as ->.
  { destruct c; simpl in *; try done. by rewrite Hl. }
  simpl. by rewrite (forEachCount_nullish l r Hin Hr).
Qed.

(** X23: decideVerdict raises a TypeError as soon as one of the
    categories is [null] or [undefined], or has a [results] sequence that
    holds a [null] or [undefined]. *)
Theorem X23_decideVerdict_raises cats c :
  c ∈ cats →
  (c = JNull ∨ c = JUndefined ∨
   ∃ l r, get c "results" = JArr l ∧ r ∈ l ∧ (r = JNull ∨ r = JUndefined)) →
  decideVerdict (JArr cats) = None.
Proof.
  intros Hin Hc. unfold decideVerdict.
  assert (mapM decideCategory cats = None) as ->; [|done].
  apply mapM_None_2, Exists_exists. exists c. split; [done|].
  by apply decideCategory_nullish.
Qed.

(** X24: normalizeScanResponse raises a TypeError on a sequence payload
    that holds a [null] or [undefined], and on an object payload without a
    [categories] sequence whose [results] sequence starts with [null] or
    [undefined]. *)
Theorem X24_normalize_raises :
  (∀ l c, c ∈ l → c = JNull ∨ c = JUndefined →
          normalizeScanResponse (JArr l) = None) ∧
  (∀ o first rest,
     isArray (get (JObj o) "categories") = false →
     get (JObj o) "results" = JArr (first :: rest) →
     first = JNull ∨ first = JUndefined →
     normalizeScanResponse (JObj o) = None).
Proof.
  split.
  - intros l c Hin Hc. unfold normalizeScanResponse.
    assert (mapM normalizeCategory l = None) as ->; [|done].
    apply mapM_None_2, Exists_exists. exists c. split; [done|].
    by destruct Hc as [-> | ->].
  - intros o first rest Hcat Hres Hfirst. unfold normalizeScanResponse.
    assert (resultsAreCategories (JObj o) = None) as Hr.
    { unfold resultsAreCategories. rewrite Hres. by destruct Hfirst as [-> | ->]. }
    destruct (get (JObj o) "categories"); try done; by rewrite Hr.
Qed.
(** ** Worked examples, for every runtime *)

Lemma sample_decided : decideVerdict SAMPLE_RESPONSE = Some SAMPLE_RESPONSE.
Proof. vm_compute. reflexivity. Qed.

Lemma sample_locals :
  maliciousCountOf sampleCategory = Some (JNum 2) ∧
  totalEnginesOf sampleCategory = Some (JNum 60) ∧
  js_gt (JNum 60) 0 = Some true ∧
  js_div (JNum 2) (JNum 60) = Some (2 / 60)%float ∧
  Math_round (2 / 60 * 100)%float = 3%float ∧
  computedVerdict sampleCategory = Some "CLEAN" ∧
  get sampleCategory "risk_score" = JNum 66 ∧
  get sampleCategory "verdict" = JStr "SUSPICIOUS".
Proof. repeat split; vm_compute; reflexivity. Qed.

Lemma boundary_computed :
  get boundaryCategory "risk_score" = JNum 69 ∧
  maliciousCountOf boundaryCategory = Some (JNum 2) ∧
  totalEnginesOf boundaryCategory = Some (JNum 0) ∧
  riskScoreOf boundaryCategory (JNum 2) (JNum 0) = Some (JNum 69) ∧
  classify (JNum 69) (JNum 2) = Some "SUSPICIOUS" ∧
  computedVerdict boundaryCategory = Some "SUSPICIOUS" ∧
  decideVerdict (JArr [boundaryCategory]) = Some (JArr [boundaryDecided]).
Proof. repeat split; vm_compute; reflexivity. Qed.

Lemma zeroEngines_passes :
  decideVerdict (JArr [zeroEnginesCategory]) = Some (JArr [zeroEnginesOnce]) ∧
  decideVerdict (JArr [zeroEnginesOnce]) = Some (JArr [zeroEnginesTwice]).
Proof. split; vm_compute; reflexivity. Qed.

Lemma zeroScore_normalized :
  isArray zeroScorePayload = false ∧
  isArray (get zeroScorePayload "categories") = false ∧
  resultsAreCategories zeroScorePayload = Some false ∧
  ownProps zeroScorePayload !! "risk_score" = Some (JNum 0) ∧
  normalizeScanResponse zeroScorePayload = Some (JArr []).
Proof. repeat split; vm_compute; reflexivity. Qed.

Lemma bareCategory_pipeline :
  normalizeScanResponse bareCategoryPayload = Some (JArr [bareCategoryNormalized]) ∧
  decideVerdict (JArr [bareCategoryNormalized]) = Some (JArr [bareCategoryDecided]) ∧
  ownProps bareCategoryDecided !! "detections" = None ∧
  get bareCategoryDecided "detections" = JUndefined.
Proof. repeat split; vm_compute; reflexivity. Qed.

Lemma emptyFavicon_normalized :
  ownProps emptyFaviconResult !! "favicon_url" = Some (JStr "") ∧
  normalizeResult emptyFaviconResult = Some emptyFaviconNormalized ∧
  ownProps emptyFaviconNormalized !! "favicon_url" = Some JNull.
Proof. repeat split; vm_compute; reflexivity. Qed.

Lemma aliasOnly_rejected now :
  get (normalizeWhoisFields aliasOnlyWhois) "registrar" = JStr "Example Registrar, Inc." ∧
  hasWhoisData aliasOnlyWhois = false ∧
  parseWhoisData now aliasOnlyWhois = JNull.
Proof. repeat split; vm_compute; reflexivity. Qed.

Lemma arrayVerdict_decided :
  decideVerdict (JArr [arrayVerdictCategory]) = Some (JArr [arrayVerdictDecided]) ∧
  get arrayVerdictDecided "verdict" = JArr [JStr "MALICIOUS"].
Proof. split; vm_compute; reflexivity. Qed.
End Engine.

(** ** Worked examples, closed *)

(** C1, counterexample: the category of SAMPLE_RESPONSE has
    [totalEngines = 60 > 0] and [maliciousCount = 2], so that
    [Math.round(2 / 60 * 100)] is 3, yet its output [risk_score] is the 66
    it came with. *)
Lemma C1_counterexample :
  decideVerdict noStringToNumber noNumberToString SAMPLE_RESPONSE
    = Some (JArr [sampleCategory]) ∧
  maliciousCountOf noStringToNumber noNumberToString sampleCategory = Some (JNum 2) ∧
  totalEnginesOf noStringToNumber noNumberToString sampleCategory = Some (JNum 60) ∧
  js_gt noStringToNumber noNumberToString (JNum 60) 0 = Some true ∧
  js_div noStringToNumber noNumberToString (JNum 2) (JNum 60) = Some (2 / 60)%float ∧
  Math_round (2 / 60 * 100)%float = 3%float ∧
  get sampleCategory "risk_score" = JNum 66 ∧
  JNum 66 ≠ JNum 3.
Proof.
  destruct (sample_locals noStringToNumber noNumberToString)
    as (Hm & Ht & Hgt & Hdiv & Hround & _ & Hrs & _).
  split; [apply sample_decided|].
  do 6 (split; [done|]).
  discriminate.
Qed.

Lemma C1_witness :
  ∃ maliciousCount totalEngines,
    maliciousCountOf noStringToNumber noNumberToString sampleCategory
      = Some maliciousCount ∧
    totalEnginesOf noStringToNumber noNumberToString sampleCategory
      = Some totalEngines ∧
    (get sampleCategory "risk_score" ≠ JUndefined →
       get sampleCategory "risk_score" = get sampleCategory "risk_score") ∧
    (get sampleCategory "risk_score" = JUndefined →
     js_gt noStringToNumber noNumberToString totalEngines 0 = Some true →
       ∃ q, js_div noStringToNumber noNumberToString maliciousCount totalEngines = Some q ∧
            get sampleCategory "risk_score" = JNum (Math_round (q * 100)%float)) ∧
    (get sampleCategory "risk_score" = JUndefined →
     js_gt noStringToNumber noNumberToString totalEngines 0 = Some false →
       get sampleCategory "risk_score" = JNum 0).
Proof.
  apply (C1_output_risk_score noStringToNumber noNumberToString
           [sampleCategory] [sampleCategory] 0 sampleCategory sampleCategory).
  - apply sample_decided.
  - reflexivity.
  - reflexivity.
Defined.

(** C2, counterexample: with [riskScore = 69] and [maliciousCount = 2]
    the computed verdict is SUSPICIOUS, not CLEAN. *)
Lemma C2_counterexample :
  get boundaryCategory "risk_score" = JNum 69 ∧
  maliciousCountOf noStringToNumber noNumberToString boundaryCategory = Some (JNum 2) ∧
  totalEnginesOf noStringToNumber noNumberToString boundaryCategory = Some (JNum 0) ∧
  riskScoreOf noStringToNumber noNumberToString boundaryCategory (JNum 2) (JNum 0)
    = Some (JNum 69) ∧
  classify noStringToNumber noNumberToString (JNum 69) (JNum 2) = Some "SUSPICIOUS" ∧
  computedVerdict noStringToNumber noNumberToString boundaryCategory
    = Some "SUSPICIOUS" ∧
  "SUSPICIOUS" ≠ "CLEAN".
Proof.
  destruct (boundary_computed noStringToNumber noNumberToString)
    as (H1 & H2 & H3 & H4 & H5 & H6 & _).
  do 6 (split; [done|]). discriminate.
Qed.

Lemma C2_witness :
  ∃ maliciousCount totalEngines riskScore computed,
    maliciousCountOf noStringToNumber noNumberToString boundaryCategory
      = Some maliciousCount ∧
    totalEnginesOf noStringToNumber noNumberToString boundaryCategory
      = Some totalEngines ∧
    riskScoreOf noStringToNumber noNumberToString boundaryCategory
      maliciousCount totalEngines = Some riskScore ∧
    computedVerdict noStringToNumber noNumberToString boundaryCategory = Some computed ∧
    let malicious :=
      js_ge noStringToNumber noNumberToString riskScore 70 = Some true ∨
      js_ge noStringToNumber noNumberToString maliciousCount 10 = Some true in
    let suspicious :=
      js_ge noStringToNumber noNumberToString riskScore 40 = Some true ∨
      js_ge noStringToNumber noNumberToString maliciousCount 3 = Some true in
    (computed = "MALICIOUS" ↔ malicious) ∧
    (computed = "SUSPICIOUS" ↔ ¬ malicious ∧ suspicious) ∧
    (computed = "CLEAN" ↔ ¬ malicious ∧ ¬ suspicious).
Proof.
  apply (proj1 (C2_classification noStringToNumber noNumberToString)
           [boundaryCategory] [boundaryDecided] 0 boundaryCategory).
  - apply boundary_computed.
  - reflexivity.
Defined.

(** C3: evaluation at the category
    [{verdict: ["SUSPICIOUS"], malicious_count: 0, total_engines: 70}].
    Its verdict is an array, not a verdict literal, and its computed
    verdict is CLEAN.  The table lookup of line 60 reads the array through
    its string form, the property name SUSPICIOUS of rank 2, above the
    rank 1 of CLEAN, and line 63 assigns the array: the output verdict is
    neither the computed verdict nor a string at all. *)
Theorem C3_wrapped_verdict_kept :
  decideVerdict noStringToNumber noNumberToString (JArr [wrappedSuspiciousCategory])
    = Some (JArr [wrappedSuspiciousDecided]) ∧
  typeof_string (get wrappedSuspiciousCategory "verdict") = false ∧
  computedVerdict noStringToNumber noNumberToString wrappedSuspiciousCategory
    = Some "CLEAN" ∧
  severity noNumberToString (get wrappedSuspiciousCategory "verdict") = Some 2%float ∧
  rankOrZero "CLEAN" = 1%float ∧
  get wrappedSuspiciousDecided "verdict" = JArr [JStr "SUSPICIOUS"] ∧
  typeof_string (get wrappedSuspiciousDecided "verdict") = false ∧
  get wrappedSuspiciousDecided "verdict" ≠ JStr "CLEAN".
Proof.
  do 7 (split; [vm_compute; reflexivity|]). discriminate.
Qed.

(** C4, counterexample: a category with explicit [malicious_count = 1] and
    [total_engines = 0] is CLEAN after one run of decideVerdict and
    MALICIOUS after two. *)
Lemma C4_counterexample :
  get zeroEnginesCategory "malicious_count" = JNum 1 ∧
  get zeroEnginesCategory "total_engines" = JNum 0 ∧
  decideVerdict noStringToNumber noNumberToString (JArr [zeroEnginesCategory])
    = Some (JArr [zeroEnginesOnce]) ∧
  decideVerdict noStringToNumber noNumberToString (JArr [zeroEnginesOnce])
    = Some (JArr [zeroEnginesTwice]) ∧
  get zeroEnginesOnce "verdict" = JStr "CLEAN" ∧
  get zeroEnginesTwice "verdict" = JStr "MALICIOUS" ∧
  decideVerdict noStringToNumber noNumberToString (JArr [zeroEnginesCategory])
    ≫= decideVerdict noStringToNumber noNumberToString
  ≠ decideVerdict noStringToNumber noNumberToString (JArr [zeroEnginesCategory]).
Proof.
  destruct (zeroEngines_passes noStringToNumber noNumberToString) as [H1 H2].
  do 2 (split; [reflexivity|]). do 2 (split; [done|]). do 2 (split; [reflexivity|]).
  rewrite H1.
  change (decideVerdict noStringToNumber noNumberToString (JArr [zeroEnginesOnce])
          ≠ Some (JArr [zeroEnginesOnce])).
  rewrite H2. discriminate.
Qed.

Lemma C4_witness :
  decideVerdict noStringToNumber noNumberToString (JArr [sampleCategory])
    ≫= decideVerdict noStringToNumber noNumberToString
  = decideVerdict noStringToNumber noNumberToString (JArr [sampleCategory]).
Proof.
  apply (C4_idempotent noStringToNumber noNumberToString sampleCategory).
  - vm_compute. discriminate.
  - vm_compute. discriminate.
  - reflexivity.
Defined.

(** C5, counterexample: the payload [{risk_score: 0}] is not a sequence,
    has no [categories] and no results-of-categories shape, and has the
    field [risk_score]; it is normalised to the empty sequence. *)
Lemma C5_counterexample :
  isArray zeroScorePayload = false ∧
  isArray (get zeroScorePayload "categories") = false ∧
  resultsAreCategories zeroScorePayload = Some false ∧
  ownProps zeroScorePayload !! "risk_score" = Some (JNum 0) ∧
  normalizeScanResponse noNumberToString zeroScorePayload = Some (JArr []).
Proof. apply zeroScore_normalized. Qed.

(** [normalize({verdict: "X"})] *)
Lemma C5_witness :
  ∃ cat,
    normalizeScanResponse noNumberToString (JObj verdictOnlyPayload) = Some (JArr [cat]) ∧
    get cat "verdict" = JStr "X" ∧
    get cat "risk_score" = JNum 0 ∧
    get cat "confidence" = JStr "N/A" ∧
    get cat "malicious_count" = JNum 0 ∧
    get cat "total_engines" = JNum 0 ∧
    get cat "detections" = JArr [] ∧
    get cat "results" = JArr [] ∧
    get cat "count" = JNum 1 ∧
    get cat "_raw" = JObj verdictOnlyPayload.
Proof.
  destruct (C5_synthetic_category noNumberToString verdictOnlyPayload
              eq_refl eq_refl (or_introl eq_refl)) as [Hsome Hall].
  destruct Hsome as [out Hout]; [by eexists|].
  destruct (Hall out Hout)
    as (cat & -> & Hv & Hrs & Hcf & Hm & Ht & Hd & Hres & Hcnt & Hraw).
  exists cat. split; [done|].
  rewrite Hv, Hrs, Hcf, Hm, Ht, Hd, Hcnt, Hraw.
  injection Hres as <-. by repeat split.
Defined.

(** C6, counterexample: the payload [[{verdict: "CLEAN"}]] goes through the
    pipeline to a category without [detections]. *)
Lemma C6_counterexample :
  normalizeScanResponse noNumberToString bareCategoryPayload
    = Some (JArr [bareCategoryNormalized]) ∧
  decideVerdict noStringToNumber noNumberToString (JArr [bareCategoryNormalized])
    = Some (JArr [bareCategoryDecided]) ∧
  ownProps bareCategoryDecided !! "detections" = None ∧
  get bareCategoryDecided "detections" = JUndefined.
Proof. apply bareCategory_pipeline. Qed.

Lemma C6_witness :
  ∃ cats outs,
    normalizeScanResponse noNumberToString (JArr [zeroEnginesCategory]) = Some cats ∧
    decideVerdict noStringToNumber noNumberToString cats = Some outs ∧
    ∃ l0 l, cats = JArr l0 ∧ outs = JArr l ∧ length l = length l0 ∧
      (∀ out, out ∈ l →
         truthy (get out "total_engines") = true ∧
         get out "total_engines" ≠ JNum 0 ∧
         (wrappedShape (JArr [zeroEnginesCategory]) →
            isArray (get out "detections") = true)) ∧
      (∀ i c out, l0 !! i = Some c → l !! i = Some out →
         ∃ totalEngines,
           totalEnginesOf noStringToNumber noNumberToString c = Some totalEngines ∧
           (get c "total_engines" ≠ JUndefined →
              totalEngines = get c "total_engines") ∧
           get out "total_engines"
             = (if truthy totalEngines then totalEngines else JNum 1)) ∧
      (wrappedShape (JArr [zeroEnginesCategory]) ∨
       ∃ supplied, suppliesCategories (JArr [zeroEnginesCategory]) supplied) ∧
      (∀ supplied, suppliesCategories (JArr [zeroEnginesCategory]) supplied →
         length l = length supplied ∧
         ∀ i cat out, supplied !! i = Some cat → l !! i = Some out →
           get out "detections" = get cat "detections").
Proof.
  eexists _, _. split; [vm_compute; reflexivity|].
  split; [vm_compute; reflexivity|].
  eapply (C6_pipeline_output noStringToNumber noNumberToString
            (JArr [zeroEnginesCategory])); vm_compute; reflexivity.
Defined.

(** C7, counterexample: the field [favicon_url] of [{favicon_url: ""}] is
    [null] in the result. *)
Lemma C7_counterexample :
  ownProps emptyFaviconResult !! "favicon_url" = Some (JStr "") ∧
  normalizeResult noNumberToString emptyFaviconResult = Some emptyFaviconNormalized ∧
  ownProps emptyFaviconNormalized !! "favicon_url" = Some JNull ∧
  JNull ≠ JStr "".
Proof.
  destruct (emptyFavicon_normalized noNumberToString) as (H1 & H2 & H3).
  by repeat split.
Qed.

Lemma C7_witness :
  (truthy emptyFaviconResult && typeof_object emptyFaviconResult = true →
     (∃ o, emptyFaviconNormalized = JObj o) ∧
     (∀ k v, ownProps emptyFaviconResult !! k = Some v → k ∉ canonicalKeys →
             ownProps emptyFaviconNormalized !! k = Some v) ∧
     srcOf noNumberToString (faviconUrlOf emptyFaviconResult)
           (faviconBase64Of emptyFaviconResult)
       = Some (get emptyFaviconNormalized "favicon_src") ∧
     srcOf noNumberToString (screenshotUrlOf emptyFaviconResult)
           (screenshotBase64Of emptyFaviconResult)
       = Some (get emptyFaviconNormalized "screenshot_src") ∧
     get emptyFaviconNormalized "favicon_url" = jor (faviconUrlOf emptyFaviconResult) JNull ∧
     get emptyFaviconNormalized "favicon_base64"
       = jor (faviconBase64Of emptyFaviconResult) JNull ∧
     (truthy (get emptyFaviconResult "favicon_url") = true →
        get emptyFaviconNormalized "favicon_url" = get emptyFaviconResult "favicon_url")) ∧
  (truthy emptyFaviconResult && typeof_object emptyFaviconResult = false →
     emptyFaviconNormalized = emptyFaviconResult).
Proof.
  apply (C7_normalizeResult_frame noNumberToString
           emptyFaviconResult emptyFaviconNormalized).
  apply emptyFavicon_normalized.
Defined.

(** C8, counterexample: a record that names its registrar under the alias
    [sponsoring_registrar], which field normalisation resolves, has no
    WHOIS data according to hasWhoisData. *)
Lemma C8_counterexample :
  get (normalizeWhoisFields aliasOnlyWhois) "registrar" = JStr "Example Registrar, Inc." ∧
  hasWhoisData aliasOnlyWhois = false ∧
  parseWhoisData noStringToNumber noNumberToString noDateParse noDatePrint
    noClock aliasOnlyWhois = JNull.
Proof. apply aliasOnly_rejected. Qed.

Lemma C9_witness :
  (formatWhoisDate noStringToNumber noNumberToString noDateParse noDatePrint
     (JStr "not a date") = JStr "not a date" ∧
   calculateDomainAge noStringToNumber noNumberToString noDateParse 0
     (JStr "not a date") = JNull ∧
   calculateDomainAgeInDays noStringToNumber noNumberToString noDateParse 0
     (JStr "not a date") = JNull ∧
   daysUntilExpiration noStringToNumber noNumberToString noDateParse 0
     (JStr "not a date") = JNull) ∧
  (formatWhoisDate noStringToNumber noNumberToString noDateParse noDatePrint
     (JArr [JStr "not a date"]) = JStr "not a date" ∧
   calculateDomainAge noStringToNumber noNumberToString noDateParse 0
     (JArr [JStr "not a date"]) = JNull ∧
   calculateDomainAgeInDays noStringToNumber noNumberToString noDateParse 0
     (JArr [JStr "not a date"]) = JNull ∧
   daysUntilExpiration noStringToNumber noNumberToString noDateParse 0
     (JArr [JStr "not a date"]) = JNull) ∧
  (∀ d, isArray d = false →
     formatWhoisDate noStringToNumber noNumberToString noDateParse noDatePrint
       (JArr [d])
     = formatWhoisDate noStringToNumber noNumberToString noDateParse noDatePrint d ∧
     calculateDomainAge noStringToNumber noNumberToString noDateParse 0 (JArr [d])
     = calculateDomainAge noStringToNumber noNumberToString noDateParse 0 d ∧
     calculateDomainAgeInDays noStringToNumber noNumberToString noDateParse 0 (JArr [d])
     = calculateDomainAgeInDays noStringToNumber noNumberToString noDateParse 0 d ∧
     daysUntilExpiration noStringToNumber noNumberToString noDateParse 0 (JArr [d])
     = daysUntilExpiration noStringToNumber noNumberToString noDateParse 0 d).
Proof.
  apply (C9_unparseable_date noStringToNumber noNumberToString noDateParse noDatePrint
           0%float "not a date" []).
  - discriminate.
  - reflexivity.
Defined.

(** C10: evaluation at the category [{verdict: ["MALICIOUS"]}].  The
    string form of the array is the property name MALICIOUS, of rank 3;
    the computed verdict is CLEAN, of rank 1; the output verdict is the
    array, which is none of the three literals. *)
Theorem C10_array_verdict_kept :
  decideVerdict noStringToNumber noNumberToString (JArr [arrayVerdictCategory])
    = Some (JArr [arrayVerdictDecided]) ∧
  computedVerdict noStringToNumber noNumberToString arrayVerdictCategory
    = Some "CLEAN" ∧
  severity noNumberToString (get arrayVerdictCategory "verdict") = Some 3%float ∧
  get arrayVerdictDecided "verdict" = JArr [JStr "MALICIOUS"] ∧
  get arrayVerdictDecided "verdict" ≠ JStr "CLEAN" ∧
  get arrayVerdictDecided "verdict" ≠ JStr "SUSPICIOUS" ∧
  get arrayVerdictDecided "verdict" ≠ JStr "MALICIOUS".
Proof.
  destruct (arrayVerdict_decided noStringToNumber noNumberToString) as [H1 H2].
  split; [done|]. split; [vm_compute; reflexivity|]. split; [vm_compute; reflexivity|].
  rewrite H2. by repeat split.
Qed.

(** ** Further worked examples, closed *)

Lemma X1_witness :
  normalizeResult noNumberToString emptyFaviconNormalized = Some emptyFaviconNormalized.
Proof.
  apply (X1_normalizeResult_idempotent noNumberToString
           emptyFaviconResult emptyFaviconNormalized).
  - reflexivity.
  - apply emptyFavicon_normalized.
Defined.

Lemma X2_witness :
  ∃ l', JArr [bareCategoryNormalized] = JArr l' ∧
    length l' = length [obj [ ("verdict", JStr "CLEAN") ]] ∧
    ∀ i cat, [obj [ ("verdict", JStr "CLEAN") ]] !! i = Some cat →
      ∃ o, l' !! i = Some (JObj o) ∧
        (∀ k, k ≠ "results" → o !! k = ownProps cat !! k) ∧
        (isArray (get cat "results") = false →
           get (JObj o) "results" = get cat "results") ∧
        (∀ rs, get cat "results" = JArr rs →
           ∃ rs', get (JObj o) "results" = JArr rs' ∧
                  mapM (normalizeResult noNumberToString) rs = Some rs').
Proof.
  apply (X2_array_payload_frame noNumberToString
           [obj [ ("verdict", JStr "CLEAN") ]] (JArr [bareCategoryNormalized])).
  exact (proj1 (bareCategory_pipeline noStringToNumber noNumberToString)).
Defined.

Lemma X3_witness :
  ∃ outs, SAMPLE_RESPONSE = JArr outs ∧ length outs = length [sampleCategory] ∧
    ∀ i c, [sampleCategory] !! i = Some c →
      ∃ o, outs !! i = Some (JObj o) ∧
        ∀ k, k ∉ ["verdict"; "risk_score"; "malicious_count"; "total_engines"] →
             o !! k = ownProps c !! k.
Proof.
  apply (X3_decideVerdict_frame noStringToNumber noNumberToString
           SAMPLE_RESPONSE SAMPLE_RESPONSE).
  apply sample_decided.
Defined.

Lemma X4_witness :
  (get sampleCategory "verdict" = JStr "MALICIOUS" →
     get sampleCategory "verdict" = JStr "MALICIOUS") ∧
  (get sampleCategory "verdict" = JStr "SUSPICIOUS" →
     get sampleCategory "verdict" = JStr "SUSPICIOUS" ∨
     get sampleCategory "verdict" = JStr "MALICIOUS").
Proof.
  apply (X4_never_downgrades noStringToNumber noNumberToString
           [sampleCategory] [sampleCategory] 0 sampleCategory sampleCategory).
  - apply sample_decided.
  - reflexivity.
  - reflexivity.
Defined.

Lemma X5_witness :
  ∃ out,
    decideVerdict noStringToNumber noNumberToString (JArr [detectionsOnlyCategory])
      = Some (JArr [out]) ∧
    get out "total_engines" = JNum 70 ∧
    get out "malicious_count" = JNum 3 ∧
    get out "verdict" = JStr "SUSPICIOUS".
Proof.
  eexists. split; [vm_compute; reflexivity|].
  split; [|split; [|vm_compute; reflexivity]].
  - refine (proj1 (X5_derived_counts noStringToNumber noNumberToString
                     [detectionsOnlyCategory] _ 0 detectionsOnlyCategory _ _ _ _) _);
      vm_compute; reflexivity.
  - refine (proj2 (X5_derived_counts noStringToNumber noNumberToString
                     [detectionsOnlyCategory] _ 0 detectionsOnlyCategory _ _ _ _) _ _);
      vm_compute; reflexivity.
Defined.

Lemma X6_witness :
  ∃ r, normalizeResult noNumberToString (JObj bareResultPayload) = Some r ∧
  ∃ out,
    normalizeScanResponse noNumberToString (JObj bareResultPayload)
      ≫= decideVerdict noStringToNumber noNumberToString = Some (JArr [out]) ∧
    get out "verdict" = JStr "CLEAN" ∧
    get out "risk_score" = JNum 0 ∧
    get out "malicious_count" = JNum 0 ∧
    get out "total_engines" = JNum 1 ∧
    get out "detections" = JArr [] ∧
    get out "results" = JArr [r] ∧
    get out "_raw" = JObj bareResultPayload.
Proof.
  eexists. split; [vm_compute; reflexivity|].
  apply (X6_bare_result_is_clean noStringToNumber noNumberToString bareResultPayload);
    vm_compute; reflexivity.
Defined.

Lemma X7_witness :
  ∃ cats outs,
    normalizeScanResponse noNumberToString (JObj verdictOnlyPayload) = Some cats ∧
    decideVerdict noStringToNumber noNumberToString cats = Some outs ∧
    ∃ l, outs = JArr l ∧
      ∀ out, out ∈ l →
        get out "verdict" = JStr "MALICIOUS" ∨ get out "verdict" = JStr "SUSPICIOUS" ∨
        get out "verdict" = JStr "CLEAN".
Proof.
  eexists _, _. split; [vm_compute; reflexivity|].
  split; [vm_compute; reflexivity|].
  eapply (X7_pipeline_verdict_literal noStringToNumber noNumberToString
            (JObj verdictOnlyPayload)).
  - reflexivity.
  - reflexivity.
  - reflexivity.
  - right. by exists "X".
  - vm_compute. reflexivity.
  - vm_compute. reflexivity.
Defined.

Lemma X8_witness :
  ∃ out,
    parseVTResult noStringToNumber noNumberToString vtSample = Some out ∧
    typeof_string (get out "verdict") = true ∧
    typeof_string (get out "confidence") = true ∧
    (∃ x, get out "risk_score" = JNum x ∧ PrimFloat.is_finite x = true) ∧
    (∃ x, get out "malicious_count" = JNum x ∧ PrimFloat.is_finite x = true) ∧
    (∃ x, get out "total_engines" = JNum x ∧ PrimFloat.is_finite x = true) ∧
    isArray (get out "detections") = true ∧
    get out "count" = JNum 1.
Proof.
  eexists. split; [vm_compute; reflexivity|].
  apply (X8_parseVTResult_shape noStringToNumber noNumberToString vtSample).
  vm_compute. reflexivity.
Defined.

Lemma X9_witness :
  ∃ out,
    parseVTResult noStringToNumber noNumberToString vtSample = Some out ∧
    parseVTResult noStringToNumber noNumberToString out = Some out.
Proof.
  eexists. split; [vm_compute; reflexivity|].
  apply (X9_parseVTResult_idempotent noStringToNumber noNumberToString vtSample).
  vm_compute. reflexivity.
Defined.

Lemma X10_witness :
  ∃ out, parseVTResult noStringToNumber noNumberToString JNull = Some out ∧
    get out "verdict" = JStr "UNKNOWN" ∧ get out "risk_score" = JNum 0 ∧
    get out "confidence" = JStr "Low" ∧ get out "malicious_count" = JNum 0 ∧
    get out "total_engines" = JNum 0 ∧ get out "detections" = JArr [] ∧
    get out "count" = JNum 1.
Proof.
  apply (X10_parseVTResult_defaults noStringToNumber noNumberToString JNull).
  reflexivity.
Defined.

Lemma X11_witness :
  ∃ out,
    parseVTResult noStringToNumber noNumberToString vtSample = Some out ∧
    isVTMalicious noStringToNumber noNumberToString out
      = isVTMalicious noStringToNumber noNumberToString vtSample.
Proof.
  eexists. split; [vm_compute; reflexivity|].
  apply (X11_isVTMalicious_parsed noStringToNumber noNumberToString vtSample).
  - vm_compute. reflexivity.
  - intros x Hx. vm_compute in Hx. injection Hx as <-. left. reflexivity.
Defined.

Lemma X12_witness :
  get (normalizeWhoisFields aliasOnlyWhois) "registrar"
    = get aliasOnlyWhois "sponsoring_registrar".
Proof.
  refine (proj1 (X12_alias_priority aliasOnlyWhois "registrar"
                   ["registrar"; "sponsoring_registrar"] _ _)
            ["registrar"] "sponsoring_registrar" [] _ _ _).
  - reflexivity.
  - repeat first [apply list_elem_of_here | apply list_elem_of_further].
  - reflexivity.
  - intros k' Hk'. apply list_elem_of_singleton in Hk' as ->. reflexivity.
  - reflexivity.
Defined.

Lemma X14_witness :
  isDomainExpired noStringToNumber noNumberToString noDateParse 0 (JStr "not a date")
    = false ∧
  isDomainExpiringSoon noStringToNumber noNumberToString noDateParse 0
    (JStr "not a date") = false.
Proof.
  apply (proj2 (X14_expiry_flags_exclusive noStringToNumber noNumberToString
                  noDateParse 0%float (JStr "not a date"))).
  reflexivity.
Defined.

Lemma X16_witness :
  let registrant := getRegistrantInfo (normalizeWhoisFields aliasOnlyWhois) in
  get registrant "organization"
    = jor (orChain aliasOnlyWhois ["org"; "organization"; "registrant_organization";
                                   "registrant_org"]) JNull ∧
  get registrant "name"
    = jor (orChain aliasOnlyWhois ["registrant_name"; "registrant"]) JNull ∧
  get registrant "email"
    = jor (orChain aliasOnlyWhois ["registrant_email"; "email"]) JNull ∧
  get registrant "country"
    = jor (orChain aliasOnlyWhois ["country"; "registrant_country"]) JNull ∧
  get registrant "state" = jor (orChain aliasOnlyWhois ["state"; "registrant_state"]) JNull ∧
  get registrant "city" = jor (orChain aliasOnlyWhois ["city"; "registrant_city"]) JNull.
Proof.
  apply (X16_registrant_through_aliases aliasOnlyWhois). reflexivity.
Defined.

Lemma X20_witness :
  removeHistoryItem sampleBrowser 1 (Holding (Some "[item]"))
    = ([historyItem], Holding (Some "[item]")) ∧
  S (length (removeHistoryItem sampleBrowser 0 (Holding (Some "[item]"))).1)
    = length [historyItem].
Proof.
  split.
  - apply (proj1 (X20_removeHistoryItem sampleBrowser 1 (Holding (Some "[item]")))).
    right. vm_compute. discriminate.
  - apply (proj2 (X20_removeHistoryItem sampleBrowser 0 (Holding (Some "[item]")))).
    vm_compute. split; [discriminate | reflexivity].
Defined.

Lemma X21_witness :
  loadHistory sampleBrowser
    (addToHistory sampleBrowser "2025-01-01T00:00:00.000Z"
       (JStr "https://example.com") (JArr []) (Holding None)).2
  = take 10 (addToHistory sampleBrowser "2025-01-01T00:00:00.000Z"
               (JStr "https://example.com") (JArr []) (Holding None)).1.
Proof.
  apply (X21_add_then_load sampleBrowser "2025-01-01T00:00:00.000Z"
           (JStr "https://example.com") (JArr []) (Holding None)).
  - discriminate.
  - reflexivity.
  - discriminate.
  - reflexivity.
Defined.

Lemma X22_witness :
  ∃ outs,
    decideVerdict noStringToNumber noNumberToString (JArr [zeroEnginesCategory])
      = Some (JArr outs) ∧
    length outs = length [zeroEnginesCategory].
Proof.
  apply (X22_decideVerdict_returns noStringToNumber noNumberToString
           [zeroEnginesCategory]).
  constructor; [|constructor].
  split; [discriminate|]. split; [discriminate|].
  split; [intros l Hl; vm_compute in Hl; discriminate|].
  repeat split; by eexists.
Defined.

Lemma X23_witness :
  decideVerdict noStringToNumber noNumberToString (JArr [sampleCategory; JNull]) = None.
Proof.
  apply (X23_decideVerdict_raises noStringToNumber noNumberToString
           [sampleCategory; JNull] JNull).
  - apply list_elem_of_further, list_elem_of_here.
  - by left.
Defined.

Lemma X24_witness :
  normalizeScanResponse noNumberToString (JArr [sampleCategory; JNull]) = None.
Proof.
  apply (proj1 (X24_normalize_raises noNumberToString) [sampleCategory; JNull] JNull).
  - apply list_elem_of_further, list_elem_of_here.
  - by left.
Defined.

(** A category that is a bare string is spread by code unit: one field
    for the two-byte character, as [{...'Ω'}] has. *)
Lemma string_category_spread :
  normalizeScanResponse noNumberToString (JArr [JStr "Ω"])
    = Some (JArr [obj [ ("0", JStr "Ω"); ("results", JUndefined) ]]) ∧
  decideVerdict noStringToNumber noNumberToString (JArr [JStr "Ω"])
    = Some (JArr [obj [ ("0", JStr "Ω"); ("verdict", JStr "CLEAN");
                        ("risk_score", JNum 0); ("malicious_count", JNum 0);
                        ("total_engines", JNum 1) ]]).
Proof. split; vm_compute; reflexivity. Qed.

Lemma X25_witness :
  ∃ computed,
    computedVerdict noStringToNumber noNumberToString boundaryCategory = Some computed ∧
    (computed = "MALICIOUS" ∨ computed = "SUSPICIOUS" ∨ computed = "CLEAN") ∧
    (get boundaryCategory "verdict" = JStr "MALICIOUS" →
       get boundaryDecided "verdict" = JStr "MALICIOUS") ∧
    (get boundaryCategory "verdict" = JStr "SUSPICIOUS" →
       get boundaryDecided "verdict"
         = JStr (if bool_decide (computed = "MALICIOUS")
                 then "MALICIOUS" else "SUSPICIOUS")) ∧
    (∀ s, get boundaryCategory "verdict" = JStr s →
          s ≠ "MALICIOUS" → s ≠ "SUSPICIOUS" →
          get boundaryDecided "verdict" = JStr computed) ∧
    (truthy (get boundaryCategory "verdict") = false →
       get boundaryDecided "verdict" = JStr computed).
Proof.
  apply (X25_merge_string_verdict noStringToNumber noNumberToString
           [boundaryCategory] [boundaryDecided] 0 boundaryCategory boundaryDecided).
  - apply boundary_computed.
  - reflexivity.
  - reflexivity.
Defined.
